(** * DeepReasoning-GPT: the two-stage streaming orchestrator of [main.py]

    A shallow embedding of [ConversationHistory], of the two stream
    consumers [get_deepseek_reasoning_stream] and
    [get_openai_answer_stream], and of [process_question].

    Modelling conventions.
    - Python [str] and [bytes] values are [string]s (lists of 8-bit
      characters).
    - A decoded JSON document is a [json] tree; [json.loads] itself is a
      parameter of the development ([json_loads]).
    - [requests.post] is a parameter ([requests_post]); a response carries
      its status code, its body as text and the lines that
      [response.iter_lines()] yields.
    - [time.time()] reads a clock that is a parameter ([clock]); the
      number of reads so far is part of the state.
    - Standard output, the clock reads and the log of requests sent form
      the [world]; every effectful function is a state transformer over
      it that either returns or raises a Python exception.
    - [get_summary] formats a time stamp through a parameter
      ([local_time_text]); [interactive_mode] is run over a list of what
      the calls of [input] do, with [str(e)] and [os.name] as parameters
      and the commands given to [os.system] kept in a log. *)

From Stdlib Require Import List String Ascii ZArith Bool Lia DecimalString.
Import ListNotations.

Local Open Scope string_scope.
Local Open Scope Z_scope.

Set Implicit Arguments.
Set Warnings "-register-all".

(** ** Python values decoded from JSON *)

(** A Python [float], kept as data only (no arithmetic is performed on
    it by the program). *)
Inductive pyfloat : Type :=
| FNan
| FInf (negative : bool)
| FFinite (negative : bool) (mantissa : N) (exponent : Z).

(** What [json.loads] can return: [None], [bool], [int], [float], [str],
    [list] and [dict] (with [str] keys; the association list holds the
    items of the dict, each key once). *)
Inductive json : Type :=
| JNull
| JBool (b : bool)
| JInt (z : Z)
| JFloat (f : pyfloat)
| JStr (s : string)
| JArr (items : list json)
| JObj (fields : list (string * json)).

(** Python exceptions that the modelled code can raise and does not
    catch.  [json.JSONDecodeError] is not among them: it is caught where
    it is raised. *)
Inductive exn : Type :=
| TypeError
| KeyError
| IndexError
| LoadsFailure        (* any other exception out of [json.loads] *)
| TransportFailure.   (* an exception out of [requests.post] *)

Inductive outcome (A : Type) : Type :=
| Ok (a : A)
| Raise (e : exn).
Arguments Ok {A} a.
Arguments Raise {A} e.

Definition obind {A B} (o : outcome A) (k : A -> outcome B) : outcome B :=
  match o with
  | Ok a => k a
  | Raise e => Raise e
  end.

(** *** Strings *)

(** [s.startswith(p)] *)
Fixpoint startswith (p s : string) : bool :=
  match p, s with
  | EmptyString, _ => true
  | String a p', String b s' => Ascii.eqb a b && startswith p' s'
  | String _ _, EmptyString => false
  end.

(** [s[n:]] for a non-negative literal [n] *)
Fixpoint drop (n : nat) (s : string) : string :=
  match n, s with
  | O, _ => s
  | S n', String _ s' => drop n' s'
  | S _, EmptyString => EmptyString
  end.

(** [p in s] for two strings: [p] occurs in [s] as a substring. *)
Fixpoint str_contains (p s : string) : bool :=
  startswith p s ||
  match s with
  | EmptyString => false
  | String _ s' => str_contains p s'
  end.

(** *** Dictionaries *)

Fixpoint lookup (key : string) (fields : list (string * json)) : option json :=
  match fields with
  | [] => None
  | (k, v) :: rest => if String.eqb key k then Some v else lookup key rest
  end.

Definition is_str (key : string) (j : json) : bool :=
  match j with
  | JStr s => String.eqb key s
  | _ => false
  end.

(** *** The operations of Python that the code applies to decoded JSON *)

(** [bool(j)] *)
Definition py_truthy (j : json) : bool :=
  match j with
  | JNull => false
  | JBool b => b
  | JInt z => negb (z =? 0)
  | JFloat (FFinite _ m _) => negb (m =? 0)%N
  | JFloat _ => true
  | JStr s => negb (String.eqb s "")
  | JArr items => match items with [] => false | _ => true end
  | JObj fields => match fields with [] => false | _ => true end
  end.

(** [key in j] for a [str] key *)
Definition py_in (key : string) (j : json) : outcome bool :=
  match j with
  | JObj fields => Ok (match lookup key fields with Some _ => true | None => false end)
  | JArr items => Ok (existsb (is_str key) items)
  | JStr s => Ok (str_contains key s)
  | _ => Raise TypeError
  end.

(** [j[key]] for a [str] key *)
Definition py_getitem (j : json) (key : string) : outcome json :=
  match j with
  | JObj fields =>
      match lookup key fields with
      | Some v => Ok v
      | None => Raise KeyError
      end
  | _ => Raise TypeError
  end.

(** [j[0]] *)
Definition py_getitem0 (j : json) : outcome json :=
  match j with
  | JArr (x :: _) => Ok x
  | JArr [] => Raise IndexError
  | JStr (String c _) => Ok (JStr (String c EmptyString))
  | JStr EmptyString => Raise IndexError
  | JObj _ => Raise KeyError   (* the keys of a decoded object are strings *)
  | _ => Raise TypeError
  end.

(** [acc += j] for a [str] accumulator *)
Definition py_str_add (acc : string) (j : json) : outcome string :=
  match j with
  | JStr s => Ok (acc ++ s)
  | _ => Raise TypeError
  end.

(** [l[start:]] on a list, with Python's treatment of negative and
    out-of-range starts. *)
Definition py_slice_from {A} (start : Z) (l : list A) : list A :=
  let n := Z.of_nat (List.length l) in
  let s := if start <? 0 then Z.max (start + n) 0 else Z.min start n in
  skipn (Z.to_nat s) l.

(** [str(z)] for an [int] *)
Definition str_of_int (z : Z) : string := NilZero.string_of_int (Z.to_int z).

(** ** The state monad of effects *)

(** What was written to standard output, oldest first.  [Text s] is the
    string [s]; [Shown j] is [str(j)] for a decoded value that is not a
    string. *)
Inductive written : Type :=
| Text (s : string)
| Shown (j : json).

Record message : Type := Message { role : string; content : string }.

Record request : Type := Request {
  url : string;
  headers : list (string * string);
  model : string;
  messages : list message;
  stream : bool
}.

Record response : Type := Response {
  status_code : Z;
  text : string;
  iter_lines : list string
}.

Record world : Type := World {
  stdout : list written;
  ticks : nat;              (* calls of [time.time()] so far *)
  sent : list request       (* requests posted so far, oldest first *)
}.

Definition M (S A : Type) : Type := S -> outcome A * S.

Definition ret {S A} (a : A) : M S A := fun s => (Ok a, s).

Definition raise {S A} (e : exn) : M S A := fun s => (Raise e, s).

Definition bind {S A B} (m : M S A) (k : A -> M S B) : M S B :=
  fun s =>
    match m s with
    | (Ok a, s') => k a s'
    | (Raise e, s') => (Raise e, s')
    end.

Definition lift {S A} (o : outcome A) : M S A := fun s => (o, s).

Notation "x <- m ;; k" := (bind m (fun x => k))
  (at level 61, m at next level, right associativity).
Notation "m ;;; k" := (bind m (fun _ => k))
  (at level 61, right associativity).

(** [print(s)] writes [s] and a newline; [print(s, end="")] writes [s]. *)
Definition newline : string := String "010" EmptyString.

Definition write (x : written) : M world unit :=
  fun w => (Ok tt, World (stdout w ++ [x])%list (ticks w) (sent w)).

Definition print (s : string) : M world unit := write (Text (s ++ newline)).

Definition print_end (j : json) : M world unit :=
  match j with
  | JStr s => write (Text s)
  | _ => write (Shown j)
  end.

(** What [json.loads(line)] does: it returns a value, raises
    [json.JSONDecodeError] (with the message that [str(e)] gives), or
    raises something else (a [UnicodeDecodeError] on bytes that are not
    UTF-8, a [RecursionError]). *)
Inductive loads_result : Type :=
| Loaded (chunk : json)
| JSONDecodeError (msg : string)
| LoadsRaised.

Section Orchestrator.

Variable timestamp : Type.
Variable clock : nat -> timestamp.
Variable json_loads : string -> loads_result.
(** [requests.post(url, headers=..., data=json.dumps(data), stream=True)]:
    the answer of the network to a request, given the requests posted
    before it. *)
Variable requests_post : list request -> request -> outcome response.

(** ** ConversationHistory *)

Definition time_time : M world timestamp :=
  fun w => (Ok (clock (ticks w)), World (stdout w) (S (ticks w)) (sent w)).

Record Turn : Type := mkTurn {
  user_query : string;
  reasoning : string;
  ai_response : string;
  turn_timestamp : timestamp
}.

Record ConversationHistory : Type := mkHistory {
  history : list Turn;
  max_history : Z
}.

Definition CONVERSATION_MAX_HISTORY : Z := 100.

(** [ConversationHistory(max_history)] *)
Definition new_history (max : Z) : ConversationHistory := mkHistory [] max.

(** The pure part of [add_interaction]: append, then trim. *)
Definition append_turn (t : Turn) (self : ConversationHistory) : ConversationHistory :=
  let h := (history self ++ [t])%list in
  if Z.of_nat (List.length h) >? max_history self
  then mkHistory (py_slice_from (- max_history self) h) (max_history self)
  else mkHistory h (max_history self).

(** [self.add_interaction(user_query, reasoning, ai_response)]; the
    state is the object together with the world. *)
Definition add_interaction (q r a : string)
  : M (ConversationHistory * world) unit :=
  fun '(self, w) =>
    match time_time w with
    | (Ok now, w') => (Ok tt, (append_turn (mkTurn q r a now) self, w'))
    | (Raise e, w') => (Raise e, (self, w'))
    end.

(** The [for] loop shared by the two context builders: two [append]s per
    stored interaction. *)
Definition append_history (msgs : list message) (h : list Turn) : list message :=
  fold_left
    (fun acc interaction =>
       ((acc ++ [Message "user" (user_query interaction)])
           ++ [Message "assistant" (ai_response interaction)])%list)
    h msgs.

Definition get_conversation_for_deepseek (self : ConversationHistory) : list message :=
  append_history [] (history self).

Definition system_prompt_with_history : string :=
  "You are a helpful assistant. Use the provided reasoning to answer questions in context of the conversation history.".

Definition get_conversation_for_openai (self : ConversationHistory)
    (current_query current_reasoning : string) : list message :=
  (append_history [Message "system" system_prompt_with_history] (history self)
  ++ [Message "user"
        ("Answer the following question: " ++ current_query
         ++ newline ++ newline
         ++ "According to the reasoning prompt: " ++ current_reasoning
         ++ newline ++ newline
         ++ "Based on this reasoning and our conversation history, provide your answer to the question.")])%list.

(** ** The two stream consumers *)

Definition DEEPSEEK_API_KEY : string := "DEEPSEEK_API_KEY".
Definition DEEPSEEK_BASE_URL : string :=
  "https://ark.cn-beijing.volces.com/api/v3/chat/completions".
Definition OPENAI_API_KEY : string := "OPENAI_API_KEY".
Definition OPENAI_BASE_URL : string := "https://api.openai.com/v1/chat/completions".

(** The state of the connection behind a [response] object when a stage
    returns: the lines that were never pulled from [iter_lines()],
    whether the iterator was run to its end (the body was read
    completely), and whether [response.close()] was called. *)
Record connection : Type := Connection {
  unread : list string;
  exhausted : bool;
  closed : bool
}.

Definition post (req : request) : M world response :=
  fun w =>
    (requests_post (sent w) req, World (stdout w) (ticks w) (sent w ++ [req])%list).

Inductive control : Type := Next | Break.

(** How a stage left its stream: the iterator ended, the [[DONE]] line
    was met, a non-null [finish_reason] was met, a [content] delta came
    after a [reasoning_content] delta, or the status was not 200 and the
    stream was never iterated. *)
Inductive exit_path : Type :=
| Exhausted
| Done
| Finish
| Transition
| BadStatus.

(** What a stage function returns ([None] or the accumulated text),
    with the exit path taken and the final state of its [response]. *)
Record stage_end : Type := StageEnd {
  returned : option string;
  path : exit_path;
  conn : connection
}.

(** ['choices' in chunk and chunk['choices'] and field in chunk['choices'][0]] *)
Definition choice_has (field : string) (chunk : json) : outcome bool :=
  obind (py_in "choices" chunk) (fun present =>
  if negb present then Ok false else
  obind (py_getitem chunk "choices") (fun choices =>
  if negb (py_truthy choices) then Ok false else
  obind (py_getitem0 choices) (fun first => py_in field first))).

(** [chunk['choices'][0][field]] *)
Definition choice_field (field : string) (chunk : json) : outcome json :=
  obind (py_getitem chunk "choices") (fun choices =>
  obind (py_getitem0 choices) (fun first => py_getitem first field)).

Definition is_none (j : json) : bool :=
  match j with JNull => true | _ => false end.

(** *** get_deepseek_reasoning_stream *)

Record reasoning_locals : Type := ReasoningLocals {
  reasoning_content : string;
  reasoning_finished : bool;
  last_reasoning_content_time : option timestamp
}.

Definition reasoning_init : reasoning_locals := ReasoningLocals "" false None.

(** The body of the [try] block after [chunk = json.loads(line)]. *)
Definition reasoning_chunk (chunk : json) (st : reasoning_locals)
  : M world (control * reasoning_locals) :=
  has_finish <- lift (choice_has "finish_reason" chunk) ;;
  finished <- (if has_finish
               then (fr <- lift (choice_field "finish_reason" chunk) ;;
                     ret (negb (is_none fr)))
               else ret false) ;;
  if finished then ret (Break, st) else
  has_delta <- lift (choice_has "delta" chunk) ;;
  if has_delta then
    delta <- lift (choice_field "delta" chunk) ;;
    has_reasoning <- lift (py_in "reasoning_content" delta) ;;
    if has_reasoning then
      now <- time_time ;;
      let st1 := ReasoningLocals (reasoning_content st) (reasoning_finished st) (Some now) in
      piece <- lift (py_getitem delta "reasoning_content") ;;
      if py_truthy piece then
        print_end piece ;;;
        acc <- lift (py_str_add (reasoning_content st1) piece) ;;
        ret (Next, ReasoningLocals acc (reasoning_finished st1)
                     (last_reasoning_content_time st1))
      else ret (Next, st1)
    else
      has_content <- lift (py_in "content" delta) ;;
      if has_content && (match last_reasoning_content_time st with
                         | Some _ => true
                         | None => false
                         end)
      then ret (Break, ReasoningLocals (reasoning_content st) true
                         (last_reasoning_content_time st))
      else ret (Next, st)
  else ret (Next, st).

(** [for line in response.iter_lines(): ...].  The result holds the
    locals at the exit, the lines left in the iterator and the way the
    loop was left. *)
Fixpoint reasoning_loop (lines : list string) (st : reasoning_locals)
  : M world (reasoning_locals * list string * exit_path) :=
  match lines with
  | [] => ret (st, [], Exhausted)
  | line :: rest =>
      if String.eqb line "" then reasoning_loop rest st
      else if startswith "data: " line then
        let line := drop 6 line in
        if String.eqb line "[DONE]" then ret (st, rest, Done)
        else
          match json_loads line with
          | Loaded chunk =>
              r <- reasoning_chunk chunk st ;;
              match r with
              | (Break, st') =>
                  ret (st', rest, if reasoning_finished st' then Transition else Finish)
              | (Next, st') => reasoning_loop rest st'
              end
          | JSONDecodeError msg =>
              print ("Error decoding JSON: " ++ msg) ;;;
              reasoning_loop rest st
          | LoadsRaised => raise LoadsFailure
          end
      else reasoning_loop rest st
  end.

(** The headers and the body of the request.  [if conversation_history:]
    holds for every [ConversationHistory] object (the class defines
    neither [__bool__] nor [__len__]) and fails for [None]. *)
Definition deepseek_request (prompt : string)
    (conversation_history : option ConversationHistory) : request :=
  let headers := [("Content-Type", "application/json");
                  ("Authorization", "Bearer " ++ DEEPSEEK_API_KEY)] in
  let messages := match conversation_history with
                  | Some h => get_conversation_for_deepseek h
                  | None => []
                  end in
  let messages := (messages ++ [Message "user" prompt])%list in
  Request DEEPSEEK_BASE_URL headers "deepseek-r1-250120" messages true.

(** The function returns [None] or the reasoning text; [stage_end]
    holds it with the exit path and the final state of [response]. *)
Definition get_deepseek_reasoning_stream (prompt : string)
    (conversation_history : option ConversationHistory) : M world stage_end :=
  print (newline ++ "DeepSeek reasoning content:") ;;;
  response <- post (deepseek_request prompt conversation_history) ;;
  if negb (status_code response =? 200) then
    print ("DeepSeek API Error: " ++ str_of_int (status_code response)) ;;;
    print (text response) ;;;          (* reads the whole body *)
    ret (StageEnd None BadStatus (Connection [] true false))
  else
    r <- reasoning_loop (iter_lines response) reasoning_init ;;
    let '(st, rest, how) := r in
    (* if reasoning_finished: response.close() *)
    let closed := reasoning_finished st in
    print newline ;;;
    ret (StageEnd (Some (reasoning_content st)) how
           (Connection rest (match how with Exhausted => true | _ => false end) closed)).

(** *** get_openai_answer_stream *)

(** The body of the [try] block after [chunk = json.loads(line)]. *)
Definition answer_chunk (chunk : json) (complete_answer : string) : M world string :=
  has_delta <- lift (choice_has "delta" chunk) ;;
  if has_delta then
    delta <- lift (choice_field "delta" chunk) ;;
    has_content <- lift (py_in "content" delta) ;;
    if has_content then
      piece <- lift (py_getitem delta "content") ;;
      if py_truthy piece then
        print_end piece ;;;
        lift (py_str_add complete_answer piece)
      else ret complete_answer
    else ret complete_answer
  else ret complete_answer.

Fixpoint answer_loop (lines : list string) (complete_answer : string)
  : M world (string * list string * exit_path) :=
  match lines with
  | [] => ret (complete_answer, [], Exhausted)
  | line :: rest =>
      if String.eqb line "" then answer_loop rest complete_answer
      else if startswith "data: " line then
        let line := drop 6 line in
        if String.eqb line "[DONE]" then ret (complete_answer, rest, Done)
        else
          match json_loads line with
          | Loaded chunk =>
              acc <- answer_chunk chunk complete_answer ;;
              answer_loop rest acc
          | JSONDecodeError msg =>
              print ("Error decoding JSON: " ++ msg) ;;;
              answer_loop rest complete_answer
          | LoadsRaised => raise LoadsFailure
          end
      else answer_loop rest complete_answer
  end.

Definition answer_prompt (prompt reasoning_text : string) : string :=
  "Answer the following question: " ++ prompt
  ++ newline ++ newline
  ++ "According to the reasoning prompt: " ++ reasoning_text
  ++ newline ++ newline
  ++ "Based on this reasoning, provide your answer to the original question.".

Definition openai_request (prompt reasoning_text : string)
    (conversation_history : option ConversationHistory) : request :=
  let headers := [("Content-Type", "application/json");
                  ("Authorization", "Bearer " ++ OPENAI_API_KEY)] in
  let messages :=
    match conversation_history with
    | Some h => get_conversation_for_openai h prompt reasoning_text
    | None => [Message "system" "You are a helpful assistant.";
               Message "user" (answer_prompt prompt reasoning_text)]
    end in
  Request OPENAI_BASE_URL headers "gpt-4o" messages true.

Definition get_openai_answer_stream (prompt reasoning_text : string)
    (conversation_history : option ConversationHistory) : M world stage_end :=
  print (newline ++ "GPT-4o Answer:") ;;;
  response <- post (openai_request prompt reasoning_text conversation_history) ;;
  if negb (status_code response =? 200) then
    print ("OpenAI API Error: " ++ str_of_int (status_code response)) ;;;
    print (text response) ;;;          (* reads the whole body *)
    ret (StageEnd None BadStatus (Connection [] true false))
  else
    r <- answer_loop (iter_lines response) "" ;;
    let '(complete_answer, rest, how) := r in
    print newline ;;;
    ret (StageEnd (Some complete_answer) how
           (Connection rest (match how with Exhausted => true | _ => false end) false)).

(** ** process_question *)

(** A computation on the world, run next to the history object. *)
Definition in_world {A} (m : M world A) : M (ConversationHistory * world) A :=
  fun '(self, w) => let (r, w') := m w in (r, (self, w')).

Definition this : M (ConversationHistory * world) ConversationHistory :=
  fun '(self, w) => (Ok self, (self, w)).

Definition process_question (user_prompt : string)
  : M (ConversationHistory * world) bool :=
  in_world (print (newline ++ "Question: " ++ user_prompt)) ;;;
  conversation_history <- this ;;
  r <- in_world (get_deepseek_reasoning_stream user_prompt (Some conversation_history)) ;;
  match returned r with
  | None =>
      in_world (print "Failed to get reasoning content from DeepSeek.") ;;;
      ret false
  | Some reasoning_text =>
      a <- in_world (get_openai_answer_stream user_prompt reasoning_text
                       (Some conversation_history)) ;;
      match returned a with
      | None =>
          in_world (print "Failed to get answer from OpenAI.") ;;;
          ret false
      | Some gpt4o_answer =>
          add_interaction user_prompt reasoning_text gpt4o_answer ;;;
          ret true
      end
  end.

(** ** The events of the specification

    The specification describes the two consumers over parsed events.
    [parse_line] follows the words of its section 4.1 (EventStreamParser);
    it is the vocabulary in which the properties below are stated, and
    is not used by the code above.  A [Malformed] event is a payload on
    which [json.loads] raises [JSONDecodeError], the lines for which the
    code prints a decode report; a payload on which [json.loads] raises
    another exception is no event. *)

Inductive StreamEvent : Type :=
| ReasoningDelta (text : string)
| AnswerDelta (text : string)
| FinishSignal
| StreamEnd
| Malformed (rawLine : string).

(** Lines that are empty or lack the [data: ] marker are skipped. *)
Definition skipped (line : string) : bool :=
  String.eqb line "" || negb (startswith "data: " line).

(** The first element of [choices] in a payload of the documented shape
    [{choices: [{delta: {...}, finish_reason: ...}]}]. *)
Definition first_choice (chunk : json) : option (list (string * json)) :=
  match chunk with
  | JObj fields =>
      match lookup "choices" fields with
      | Some (JArr (JObj choice :: _)) => Some choice
      | _ => None
      end
  | _ => None
  end.

Definition classify (chunk : json) : option StreamEvent :=
  match first_choice chunk with
  | None => None
  | Some choice =>
      match lookup "finish_reason" choice with
      | None | Some JNull =>
          match lookup "delta" choice with
          | Some (JObj delta) =>
              match lookup "reasoning_content" delta with
              | Some (JStr t) => Some (ReasoningDelta t)
              | Some _ => None
              | None =>
                  match lookup "content" delta with
                  | Some (JStr t) => Some (AnswerDelta t)
                  | _ => None
                  end
              end
          | _ => None
          end
      | Some _ => Some FinishSignal
      end
  end.

Definition parse_line (line : string) : option StreamEvent :=
  if skipped line then None
  else
    let payload := drop 6 line in
    if String.eqb payload "[DONE]" then Some StreamEnd
    else
      match json_loads payload with
      | Loaded chunk => classify chunk
      | JSONDecodeError _ => Some (Malformed payload)
      | LoadsRaised => None
      end.

(** The events of a run of lines each of which is skipped or parsed to
    an event; [None] when some line is neither. *)
Fixpoint events_of (lines : list string) : option (list StreamEvent) :=
  match lines with
  | [] => Some []
  | line :: rest =>
      if skipped line then events_of rest
      else
        match parse_line line, events_of rest with
        | Some e, Some es => Some (e :: es)
        | _, _ => None
        end
  end.

(** The concatenation of a list of delta texts. *)
Definition joined (texts : list string) : string :=
  fold_right append "" texts.

(** The [last_reasoning_content_time] after [k] further reasoning deltas,
    the first of which read the clock for the [n]-th time. *)
Definition stamped (last : option timestamp) (n k : nat) : option timestamp :=
  match k with
  | O => last
  | S k' => Some (clock (n + k'))
  end.

(** The text that the [delta] of a payload of the documented shape
    carries under [content]: the empty text when there is no [delta] or
    no [content] in it. *)
Definition delta_content (chunk : json) : option string :=
  match first_choice chunk with
  | None => None
  | Some choice =>
      match lookup "delta" choice with
      | None => Some ""
      | Some (JObj delta) =>
          match lookup "content" delta with
          | None => Some ""
          | Some (JStr t) => Some t
          | Some _ => None
          end
      | Some _ => None
      end
  end.

Definition line_content (line : string) : option string :=
  if skipped line then None
  else
    match json_loads (drop 6 line) with
    | Loaded chunk => delta_content chunk
    | _ => None
    end.

(** The message of the [JSONDecodeError] that a payload raises. *)
Definition decode_message (payload : string) : string :=
  match json_loads payload with
  | JSONDecodeError msg => msg
  | _ => ""
  end.

(** The non-empty pieces of a list of delta texts, as they are printed. *)
Definition printed (texts : list string) : list written :=
  map Text (filter (fun t => negb (String.eqb t "")) texts).

(** What is printed for a line that fails to decode. *)
Definition decode_report (raw : string) : written :=
  Text ("Error decoding JSON: " ++ decode_message raw ++ newline).

(** Answer deltas and malformed lines: the text that the deltas carry
    and what the answer stage prints for them. *)
Definition answer_event (e : StreamEvent) : bool :=
  match e with
  | AnswerDelta _ | Malformed _ => true
  | _ => false
  end.

Fixpoint answer_text (es : list StreamEvent) : string :=
  match es with
  | [] => ""
  | AnswerDelta t :: more => t ++ answer_text more
  | _ :: more => answer_text more
  end.

Fixpoint answer_output (es : list StreamEvent) : list written :=
  match es with
  | [] => []
  | AnswerDelta t :: more => (printed [t] ++ answer_output more)%list
  | Malformed raw :: more => decode_report raw :: answer_output more
  | _ :: more => answer_output more
  end.

(** The world when a stage starts to iterate: its banner is printed and
    its request is posted. *)
Definition begun (w : world) (banner : string) (req : request) : world :=
  World (stdout w ++ [Text (banner ++ newline)]) (ticks w) (sent w ++ [req]).

(** The world after the [print] of a newline that ends a stage. *)
Definition ended (w : world) : world :=
  World (stdout w ++ [Text (newline ++ newline)]) (ticks w) (sent w).

Definition reasoning_banner : string := newline ++ "DeepSeek reasoning content:".
Definition answer_banner : string := newline ++ "GPT-4o Answer:".

(** The stream ends at the head of [tail]: nothing is left, or its first
    line is the [[DONE]] sentinel. *)
Definition ends_here (tail : list string) : bool :=
  match tail with
  | [] => true
  | line :: _ =>
      match parse_line line with
      | Some StreamEnd => true
      | _ => false
      end
  end.

(** The world after the error report of a stage whose status was not
    200: the banner, the status line and the body. *)
Definition failed (w : world) (banner label : string) (req : request) (r : response)
  : world :=
  World (stdout w ++ [Text (banner ++ newline);
                      Text ((label ++ str_of_int (status_code r)) ++ newline);
                      Text (text r ++ newline)])
        (ticks w) (sent w ++ [req]).

(** The world after [print(f"\nQuestion: {user_prompt}")]. *)
Definition asked (w : world) (user_prompt : string) : world :=
  World (stdout w ++ [Text ((newline ++ "Question: " ++ user_prompt) ++ newline)])
        (ticks w) (sent w).


(** ** Sample streams

    Payloads as they appear on the wire, the values [json.loads] gives
    for them, and a decoder, a network and a clock for running the
    program on them. *)

Definition dq : string := String "034" EmptyString.

Definition quoted (s : string) : string := dq ++ s ++ dq.

(** [{"choices":[{"delta":{"<field>":"<text>"}}]}] *)
Definition delta_payload (field text : string) : string :=
  "{" ++ quoted "choices" ++ ":[{" ++ quoted "delta" ++ ":{"
      ++ quoted field ++ ":" ++ quoted text ++ "}}]}".

Definition delta_chunk (field text : string) : json :=
  JObj [("choices", JArr [JObj [("delta", JObj [(field, JStr text)])]])].

(** [{"choices":[{"delta":{},"finish_reason":"stop"}]}] *)
Definition finish_payload : string :=
  "{" ++ quoted "choices" ++ ":[{" ++ quoted "delta" ++ ":{},"
      ++ quoted "finish_reason" ++ ":" ++ quoted "stop" ++ "}]}".

Definition finish_chunk : json :=
  JObj [("choices", JArr [JObj [("delta", JObj []);
                                ("finish_reason", JStr "stop")]])].

Definition sample_table : list (string * json) :=
  [ (delta_payload "reasoning_content" "a", delta_chunk "reasoning_content" "a");
    (delta_payload "reasoning_content" "b", delta_chunk "reasoning_content" "b");
    (delta_payload "reasoning_content" "", delta_chunk "reasoning_content" "");
    (delta_payload "content" "x", delta_chunk "content" "x");
    (delta_payload "content" "y", delta_chunk "content" "y");
    (finish_payload, finish_chunk) ].

(** [json.loads] on the payloads of the table; any other payload used
    below ([oops]) is not JSON. *)
Definition sample_loads (payload : string) : loads_result :=
  match find (fun entry => String.eqb payload (fst entry)) sample_table with
  | Some entry => Loaded (snd entry)
  | None => JSONDecodeError "Expecting value: line 1 column 1 (char 0)"
  end.

Definition data_line (payload : string) : string := "data: " ++ payload.

(** A network that answers every request with the same response. *)
Definition replying (r : response) : list request -> request -> outcome response :=
  fun _ _ => Ok r.

(** A network whose reasoning endpoint answers [r1] and whose answering
    endpoint answers [r2]. *)
Definition replying2 (r1 r2 : response) : list request -> request -> outcome response :=
  fun _ req => if String.eqb (url req) DEEPSEEK_BASE_URL then Ok r1 else Ok r2.

Definition sample_clock : nat -> nat := fun n => n.

Definition reasoning_line (t : string) : string :=
  data_line (delta_payload "reasoning_content" t).

Definition content_line (t : string) : string :=
  data_line (delta_payload "content" t).

Definition done_line : string := data_line "[DONE]".

(** Server-sent events are separated by empty lines. *)
Definition reasoning_then_answer : response :=
  Response 200 ""
    [reasoning_line "a"; ""; reasoning_line "b"; ""; content_line "x"; "";
     done_line; ""].

Definition empty_reasoning_then_answer : response :=
  Response 200 ""
    [reasoning_line ""; ""; reasoning_line ""; ""; content_line "x"; "";
     done_line; ""].

Definition empty_reasoning_then_done : response :=
  Response 200 "" [reasoning_line ""; ""; done_line; ""].

Definition answer_around_malformed : response :=
  Response 200 ""
    [content_line "x"; ""; data_line "oops"; ""; content_line "y"; "";
     done_line; ""].

Definition answer_then_finish_then_done : response :=
  Response 200 "" [content_line "x"; ""; data_line finish_payload; ""; done_line; ""].

Definition answer_past_finish : response :=
  Response 200 "" [content_line "x"; data_line finish_payload; content_line "y"].

Definition reasoning_then_finish : response :=
  Response 200 "" [reasoning_line "a"; ""; data_line finish_payload; ""; done_line; ""].

Definition refused : response := Response 500 "Internal Server Error" [].

(** ** Vocabulary for the properties of the history *)

(** A sequence of commits: [add_interaction] once per triple, in order. *)
Fixpoint add_interactions (rounds : list (string * string * string))
  : M (ConversationHistory * world) unit :=
  match rounds with
  | [] => ret tt
  | (q, r, a) :: more => add_interaction q r a ;;; add_interactions more
  end.

(** The Turns that a sequence of commits creates when the clock has been
    read [n] times before. *)
Fixpoint turns_from (n : nat) (rounds : list (string * string * string)) : list Turn :=
  match rounds with
  | [] => []
  | (q, r, a) :: more => mkTurn q r a (clock n) :: turns_from (S n) more
  end.

(** The last [n] elements of a list, in their order. *)
Definition lastn {A} (n : nat) (l : list A) : list A :=
  skipn (List.length l - n) l.

(** The alternating user/assistant messages of question/answer pairs. *)
Definition alternating (pairs : list (string * string)) : list message :=
  flat_map (fun qa => [Message "user" (fst qa); Message "assistant" (snd qa)]) pairs.

Definition question_answer (t : Turn) : string * string :=
  (user_query t, ai_response t).

Definition world0 : world := World [] 0 [].


(** ** Vocabulary for runs of events in the reasoning stage *)

Definition seen (last : option timestamp) : bool :=
  match last with Some _ => true | None => false end.

(** Events over which the reasoning loop does not stop: reasoning
    deltas, malformed lines, and answer deltas as long as no reasoning
    delta came before ([had] tells whether one did). *)
Fixpoint quiet (had : bool) (es : list StreamEvent) : bool :=
  match es with
  | [] => true
  | ReasoningDelta _ :: more => quiet true more
  | AnswerDelta _ :: more => negb had && quiet had more
  | Malformed _ :: more => quiet had more
  | _ :: _ => false
  end.

Fixpoint reasoning_text (es : list StreamEvent) : string :=
  match es with
  | [] => ""
  | ReasoningDelta t :: more => t ++ reasoning_text more
  | _ :: more => reasoning_text more
  end.

Fixpoint reasoning_output (es : list StreamEvent) : list written :=
  match es with
  | [] => []
  | ReasoningDelta t :: more => (printed [t] ++ reasoning_output more)%list
  | Malformed raw :: more => decode_report raw :: reasoning_output more
  | _ :: more => reasoning_output more
  end.

(** The number of reasoning deltas: each reads the clock once. *)
Fixpoint reasoning_reads (es : list StreamEvent) : nat :=
  match es with
  | [] => O
  | ReasoningDelta _ :: more => S (reasoning_reads more)
  | _ :: more => reasoning_reads more
  end.

(** The [last_reasoning_content_time] after a run of events, when the
    clock had been read [n] times before. *)
Fixpoint last_stamp (last : option timestamp) (n : nat) (es : list StreamEvent)
  : option timestamp :=
  match es with
  | [] => last
  | ReasoningDelta _ :: more => last_stamp (Some (clock n)) (S n) more
  | _ :: more => last_stamp last n more
  end.

(** The exit that an event causes in the reasoning loop, if any. *)
Definition stops (had : bool) (e : StreamEvent) : option exit_path :=
  match e with
  | FinishSignal => Some Finish
  | StreamEnd => Some Done
  | AnswerDelta _ => if had then Some Transition else None
  | _ => None
  end.

Definition is_transition (how : exit_path) : bool :=
  match how with Transition => true | _ => false end.

(** Values on which [in] raises: [None], [bool], [int] and [float]. *)
Definition scalar (j : json) : bool :=
  match j with
  | JNull | JBool _ | JInt _ | JFloat _ => true
  | _ => false
  end.

(** More sample payloads: [null]; a chunk without choices
    [{"choices":[]}]; and a delta that carries both keys,
    [{"choices":[{"delta":{"content":"<text>","reasoning_content":null}}]}]. *)
Definition no_choices_payload : string := "{" ++ quoted "choices" ++ ":[]}".

Definition no_choices_chunk : json := JObj [("choices", JArr [])].

Definition both_keys_payload (t : string) : string :=
  "{" ++ quoted "choices" ++ ":[{" ++ quoted "delta" ++ ":{"
      ++ quoted "content" ++ ":" ++ quoted t ++ ","
      ++ quoted "reasoning_content" ++ ":null}}]}".

Definition both_keys_chunk (t : string) : json :=
  JObj [("choices",
         JArr [JObj [("delta", JObj [("content", JStr t);
                                     ("reasoning_content", JNull)])]])].

Definition wider_table : list (string * json) :=
  (sample_table
   ++ [ ("null", JNull);
        (no_choices_payload, no_choices_chunk);
        (both_keys_payload "x", both_keys_chunk "x") ])%list.

Definition wider_loads (payload : string) : loads_result :=
  match find (fun entry => String.eqb payload (fst entry)) wider_table with
  | Some entry => Loaded (snd entry)
  | None => JSONDecodeError "Expecting value: line 1 column 1 (char 0)"
  end.

Definition reasoning_with_noise : response :=
  Response 200 ""
    [content_line "y"; ""; reasoning_line "a"; ""; data_line "oops"; "";
     reasoning_line "b"; ""; content_line "x"; ""; done_line; ""].

Definition reasoning_cut_short : response :=
  Response 200 "" [reasoning_line "a"; ""; reasoning_line "b"; ""].

(** A decoded payload in which ['choices' in chunk and chunk['choices']]
    is false: no [choices] key (or element, or substring), or a [choices]
    value that is empty, zero, false or [None]. *)
Definition no_choices (chunk : json) : bool :=
  match chunk with
  | JObj fields =>
      match lookup "choices" fields with
      | None => true
      | Some c => negb (py_truthy c)
      end
  | JArr items => negb (existsb (is_str "choices") items)
  | JStr s => negb (str_contains "choices" s)
  | _ => false
  end.

(** A payload of the documented shape, without a finish reason, whose
    delta has the key [reasoning_content] with an empty value ([None] or
    the empty string), whatever else the delta carries. *)
Definition silent_reasoning (chunk : json) : bool :=
  match first_choice chunk with
  | None => false
  | Some choice =>
      match lookup "finish_reason" choice with
      | None | Some JNull =>
          match lookup "delta" choice with
          | Some (JObj delta) =>
              match lookup "reasoning_content" delta with
              | Some v => negb (py_truthy v)
              | None => false
              end
          | _ => false
          end
      | Some _ => false
      end
  end.

(** The payload of a data line, when it decodes. *)
Definition decoded (line : string) : option json :=
  if skipped line then None
  else if String.eqb (drop 6 line) "[DONE]" then None
  else
    match json_loads (drop 6 line) with
    | Loaded chunk => Some chunk
    | _ => None
    end.

Definition decodes_to (p : json -> bool) (line : string) : bool :=
  match decoded line with
  | Some chunk => p chunk
  | None => false
  end.

(** A computation that posts nothing: the log of requests is the same
    after it, whether it returns or raises. *)
Definition posts_nothing {A} (m : M world A) : Prop :=
  forall w : world, sent (snd (m w)) = sent w.

(** ** get_summary

    The characters of a [str] are the characters of a [string]: [len]
    and [[:50]] count them one by one. *)

(** [time.strftime("%Y-%m-%d %H:%M:%S", time.localtime(t))] *)
Variable local_time_text : timestamp -> string.

(** [s[:n]] *)
Fixpoint take (n : nat) (s : string) : string :=
  match n, s with
  | S n', String c s' => String c (take n' s')
  | _, _ => EmptyString
  end.

(** [{s[:50]}{'...' if len(s) > 50 else ''}] *)
Definition shown (s : string) : string :=
  take 50 s ++ (if (50 <? String.length s)%nat then "..." else "").

(** The text that one round of the loop adds for the [i]-th interaction. *)
Definition summary_entry (i : Z) (interaction : Turn) : string :=
  newline ++ str_of_int i ++ ". " ++ local_time_text (turn_timestamp interaction)
  ++ newline ++ "User: " ++ shown (user_query interaction)
  ++ newline ++ "AI: " ++ shown (ai_response interaction) ++ newline.

Definition summary_header (n : nat) : string :=
  "Conversation History (" ++ str_of_int (Z.of_nat n) ++ " interactions):" ++ newline.

Definition no_history_text : string := "No conversation history yet.".

Definition get_summary (self : ConversationHistory) : string :=
  match history self with
  | [] => no_history_text
  | _ =>
      snd (fold_left
             (fun '(i, summary) interaction =>
                (i + 1, summary ++ summary_entry i interaction))
             (history self)
             (1, summary_header (List.length (history self))))
  end.

(** The entries of a list of interactions, numbered from [i]. *)
Fixpoint numbered (i : Z) (h : list Turn) : list string :=
  match h with
  | [] => []
  | interaction :: more => summary_entry i interaction :: numbered (i + 1) more
  end.

(** ** interactive_mode

    The keyboard is a list of what the calls of [input] do, in order: a
    line is typed, the input is at its end ([EOFError]), or the user
    interrupts ([KeyboardInterrupt], which the model places at a call of
    [input]).  A run over a list of keys is the session up to the point
    where the program left the loop or waits for the next key. *)

(** [str(e)] for an exception that a round raised. *)
Variable str_of_exn : exn -> string.

(** [os.name] *)
Variable os_name : string.

Inductive keyboard : Type :=
| Typed (user_input : string)
| EndOfFile
| Interrupt.

Record session : Type := Session {
  conversation_history : ConversationHistory;
  terminal : world;
  os_system : list string     (* the commands given to [os.system], oldest first *)
}.

(** [c.lower()] for a character below 256: the letters [A]-[Z] and the
    capital letters from 192 to 222 ([215], the multiplication sign,
    apart) move up by 32. *)
Definition lower_char (c : ascii) : ascii :=
  let n := nat_of_ascii c in
  if ((65 <=? n) && (n <=? 90)
      || (192 <=? n) && (n <=? 222) && negb (n =? 215))%nat
  then ascii_of_nat (n + 32)
  else c.

Fixpoint lower (s : string) : string :=
  match s with
  | EmptyString => EmptyString
  | String c s' => String (lower_char c) (lower s')
  end.

(** [c.isspace()] for a character below 256 *)
Definition is_space (c : ascii) : bool :=
  let n := nat_of_ascii c in
  ((9 <=? n) && (n <=? 13) || (28 <=? n) && (n <=? 32)
   || (n =? 133) || (n =? 160))%nat.

(** [not s.strip()]: every character of [s] is white space. *)
Fixpoint blank (s : string) : bool :=
  match s with
  | EmptyString => true
  | String c s' => is_space c && blank s'
  end.

(** The world after [print(s)]. *)
Definition say (s : string) (w : world) : world := snd (print s w).

Definition clear_command : string :=
  if String.eqb os_name "nt" then "cls" else "clear".

(** One round of [while True]: [Next] when the loop goes on, [Break]
    when it is left. *)
Definition interactive_step (key : keyboard) (s : session) : control * session :=
  let history_object := conversation_history s in
  (* input("\n>>> ") writes its prompt *)
  let w := snd (write (Text (newline ++ ">>> ")) (terminal s)) in
  match key with
  | Interrupt =>
      (Break, Session history_object
                (say (newline ++ "Session interrupted. Goodbye!") w) (os_system s))
  | EndOfFile =>
      (Next, Session history_object
               (say "Let's continue with a new question."
                  (say (newline ++ "An error occurred: " ++ "EOF when reading a line") w))
               (os_system s))
  | Typed user_input =>
      if String.eqb (lower user_input) "#exit" then
        (Break, Session history_object (say "Goodbye!" w) (os_system s))
      else if String.eqb (lower user_input) "#history" then
        (Next, Session history_object (say (get_summary history_object) w) (os_system s))
      else if String.eqb (lower user_input) "#clear" then
        (Next, Session (new_history CONVERSATION_MAX_HISTORY) w
                 (os_system s ++ [clear_command]))
      else if blank user_input then
        (Next, Session history_object w (os_system s))
      else
        match process_question user_input (history_object, w) with
        | (Ok _, (history_object', w')) =>
            (Next, Session history_object' w' (os_system s))
        | (Raise e, (history_object', w')) =>
            (Next, Session history_object'
                     (say "Let's continue with a new question."
                        (say (newline ++ "An error occurred: " ++ str_of_exn e) w'))
                     (os_system s))
        end
  end.

Fixpoint interactive_loop (keys : list keyboard) (s : session) : control * session :=
  match keys with
  | [] => (Next, s)
  | key :: more =>
      match interactive_step key s with
      | (Break, s') => (Break, s')
      | (Next, s') => interactive_loop more s'
      end
  end.

Definition interactive_mode (keys : list keyboard) (w : world) : control * session :=
  let w := say "Welcome to the AI Assistant with context memory." w in
  let w := say "Type '#exit' to end the session." w in
  let w := say "Type '#history' to see conversation history." w in
  let w := say "Type '#clear' to clear conversation history." w in
  interactive_loop keys (Session (new_history CONVERSATION_MAX_HISTORY) w []).

Definition main (keys : list keyboard) (w : world) : control * session :=
  interactive_mode keys (say "Starting AI Assistant with context memory..." w).

(** The world after the prompt of [input("\n>>> ")] was written. *)
Definition prompted (w : world) : world :=
  snd (write (Text (newline ++ ">>> ")) w).

(** An input that the loop handles itself: one of the three commands, in
    any letter case, or a blank line. *)
Definition handled_locally (user_input : string) : bool :=
  String.eqb (lower user_input) "#exit"
  || String.eqb (lower user_input) "#history"
  || String.eqb (lower user_input) "#clear"
  || blank user_input.

(** The world after the report of an exception. *)
Definition reported (text : string) (w : world) : world :=
  say "Let's continue with a new question."
    (say (newline ++ "An error occurred: " ++ text) w).

(** More sample data: streams with payloads outside the documented
    shape, and the parameters of the session. *)
Definition null_stream : response := Response 200 "" [data_line "null"; ""; done_line; ""].

Definition usage_stream : response :=
  Response 200 ""
    [content_line "x"; ""; data_line no_choices_payload; ""; done_line; ""].

Definition both_keys_stream : response :=
  Response 200 ""
    [reasoning_line "a"; ""; data_line (both_keys_payload "x"); ""; done_line; ""].

Definition sample_time_text (t : nat) : string :=
  "1970-01-01 00:00:0" ++ str_of_int (Z.of_nat t).

Definition sample_str_of_exn (e : exn) : string :=
  match e with
  | TypeError => "argument of type 'NoneType' is not iterable"
  | KeyError => "0"
  | IndexError => "string index out of range"
  | LoadsFailure => "'utf-8' codec can't decode byte 0xff in position 0: invalid start byte"
  | TransportFailure => "Connection refused"
  end.

(** A request as the two stages build them: to one of the two endpoints,
    with the model of that endpoint, and streamed. *)
Definition endpoint_request (r : request) : bool :=
  (String.eqb (url r) DEEPSEEK_BASE_URL && String.eqb (model r) "deepseek-r1-250120"
   || String.eqb (url r) OPENAI_BASE_URL && String.eqb (model r) "gpt-4o")
  && stream r.

(** A payload that is not UTF-8 (the one byte 255): [json.loads] raises
    [UnicodeDecodeError] on it, which is not a [JSONDecodeError]. *)
Definition not_utf8 : string := String "255" EmptyString.

Definition bytes_loads (payload : string) : loads_result :=
  if String.eqb payload not_utf8 then LoadsRaised else sample_loads payload.

Definition answer_around_bad_bytes : response :=
  Response 200 ""
    [content_line "x"; ""; data_line not_utf8; ""; content_line "y"; "";
     done_line; ""].

(** * Properties *)

(** ** ConversationHistory *)

Lemma append_history_flat (h : list Turn) (msgs : list message) :
  append_history msgs h = (msgs ++ alternating (map question_answer h))%list.
Proof.
  revert msgs; induction h as [|t h IH]; intros msgs; simpl.
  - now rewrite app_nil_r.
  - unfold append_history in *; simpl. rewrite IH.
    now rewrite <- !app_assoc.
Qed.

Lemma alternating_roles (pairs : list (string * string)) :
  Forall (fun m => role m = "user" \/ role m = "assistant") (alternating pairs).
Proof.
  induction pairs as [|[q a] pairs IH]; simpl; auto.
Qed.

(** C9: on a stored history [(q1,_,a1); (q2,_,a2); ...] the reasoning
    context is exactly [user:q1; assistant:a1; user:q2; assistant:a2; ...],
    oldest first.  It holds no system message, and it is the same for
    two histories with the same questions and answers, whatever their
    reasoning texts and time stamps are. *)
Theorem get_conversation_for_deepseek_alternating (self : ConversationHistory) :
  get_conversation_for_deepseek self = alternating (map question_answer (history self))
  /\ Forall (fun m => role m <> "system") (get_conversation_for_deepseek self)
  /\ forall other : ConversationHistory,
       map question_answer (history other) = map question_answer (history self) ->
       get_conversation_for_deepseek other = get_conversation_for_deepseek self.
Proof.
  unfold get_conversation_for_deepseek.
  rewrite append_history_flat; simpl. repeat split.
  - eapply Forall_impl; [|apply alternating_roles].
    intros m [H|H]; rewrite H; discriminate.
  - intros other H. now rewrite append_history_flat, H.
Qed.

Lemma lastn_all {A} (n : nat) (l : list A) :
  (List.length l <= n)%nat -> lastn n l = l.
Proof.
  intros H; unfold lastn.
  replace (List.length l - n)%nat with 0%nat by lia. reflexivity.
Qed.

Lemma lastn_length {A} (n : nat) (l : list A) :
  List.length (lastn n l) = Nat.min n (List.length l).
Proof. unfold lastn; rewrite length_skipn; lia. Qed.

Lemma lastn_app_lastn {A} (n : nat) (l l' : list A) :
  lastn n (lastn n l ++ l') = lastn n (l ++ l').
Proof.
  unfold lastn.
  rewrite !length_app, length_skipn.
  destruct (Nat.le_gt_cases (List.length l) n) as [Hle|Hgt].
  - assert (E : (List.length l - n = 0)%nat) by lia.
    rewrite E; simpl skipn. f_equal; lia.
  - remember (List.length l - n)%nat as k eqn:Ek.
    replace (List.length l - k + List.length l' - n)%nat
      with (List.length l') by lia.
    rewrite !skipn_app, length_skipn, skipn_skipn.
    f_equal; f_equal; lia.
Qed.

(** With a capacity of at least one, a commit leaves the most recent
    [max_history] Turns. *)
Lemma append_turn_recent (t : Turn) (self : ConversationHistory) :
  1 <= max_history self ->
  append_turn t self
  = mkHistory (lastn (Z.to_nat (max_history self)) (history self ++ [t]))
              (max_history self).
Proof.
  intros Hcap; unfold append_turn.
  destruct (Z.gtb_spec (Z.of_nat (List.length (history self ++ [t])))
                       (max_history self)) as [Hgt|Hle].
  - f_equal. unfold py_slice_from, lastn.
    destruct (Z.ltb_spec (- max_history self) 0) as [_|?]; [|lia].
    f_equal. lia.
  - f_equal. symmetry; apply lastn_all. lia.
Qed.

Lemma add_interactions_recent (rounds : list (string * string * string))
    (self : ConversationHistory) (w : world) :
  1 <= max_history self ->
  (Z.of_nat (List.length (history self)) <= max_history self
   \/ rounds <> []) ->
  add_interactions rounds (self, w)
  = (Ok tt,
     (mkHistory (lastn (Z.to_nat (max_history self))
                       (history self ++ turns_from (ticks w) rounds))
                (max_history self),
      World (stdout w) (ticks w + List.length rounds) (sent w))).
Proof.
  revert self w; induction rounds as [|[[q r] a] more IH]; intros self w Hcap Hstart.
  - simpl. unfold ret. rewrite app_nil_r, Nat.add_0_r.
    destruct Hstart as [Hlen|Hne]; [|congruence].
    rewrite lastn_all by lia. now destruct self, w.
  - simpl. unfold bind, add_interaction, time_time.
    rewrite append_turn_recent by assumption.
    rewrite IH; simpl; [|assumption|].
    + rewrite lastn_app_lastn, <- app_assoc; simpl.
      do 3 f_equal. lia.
    + left. rewrite lastn_length. lia.
Qed.

Lemma turns_from_length (n : nat) (rounds : list (string * string * string)) :
  List.length (turns_from n rounds) = List.length rounds.
Proof.
  revert n; induction rounds as [|[[q r] a] more IH]; intros n; simpl; auto.
Qed.

Lemma lastn_app_long {A} (n : nat) (l l' : list A) :
  (n <= List.length l')%nat -> lastn n (l ++ l') = lastn n l'.
Proof.
  intros H; unfold lastn. rewrite length_app, skipn_app.
  rewrite skipn_all2 by lia. simpl. f_equal. lia.
Qed.

(** With a capacity of at least one the bound of the history holds: from
    a history within the capacity, every sequence of commits leaves a
    history within the capacity, and once more commits than the capacity
    were made the history is the last [max_history] of them, in their
    order. *)
Lemma history_bounded_from_capacity_one (rounds : list (string * string * string))
    (self : ConversationHistory) (w : world) :
  1 <= max_history self ->
  Z.of_nat (List.length (history self)) <= max_history self ->
  exists self' w',
    add_interactions rounds (self, w) = (Ok tt, (self', w'))
    /\ max_history self' = max_history self
    /\ Z.of_nat (List.length (history self')) <= max_history self'
    /\ (max_history self < Z.of_nat (List.length rounds) ->
        history self'
        = lastn (Z.to_nat (max_history self)) (turns_from (ticks w) rounds)).
Proof.
  intros Hcap Hlen.
  rewrite add_interactions_recent by auto.
  do 2 eexists; split; [reflexivity|]. simpl.
  repeat split.
  - rewrite lastn_length. lia.
  - intros Hmany. apply lastn_app_long. rewrite turns_from_length. lia.
Qed.

Lemma add_interactions_zero (rounds : list (string * string * string))
    (h : list Turn) (w : world) :
  add_interactions rounds (mkHistory h 0, w)
  = (Ok tt,
     (mkHistory (h ++ turns_from (ticks w) rounds) 0,
      World (stdout w) (ticks w + List.length rounds) (sent w))).
Proof.
  revert h w; induction rounds as [|[[q r] a] more IH]; intros h w.
  - simpl. unfold ret. rewrite app_nil_r, Nat.add_0_r. now destruct w.
  - simpl. unfold bind, add_interaction, time_time, append_turn.
    cbn [history max_history].
    destruct (Z.gtb_spec (Z.of_nat (List.length (h ++ [mkTurn q r a (clock (ticks w))]))) 0)
      as [_|Hle]; [|rewrite length_app in Hle; simpl in Hle; lia].
    unfold py_slice_from. simpl Z.opp. cbn [Z.ltb Z.compare].
    rewrite Z.min_l by lia. simpl skipn.
    rewrite IH. cbn [ticks stdout sent].
    rewrite <- app_assoc. simpl. do 3 f_equal. lia.
Qed.

(** C3, at the capacity 0: no Turn is ever evicted.  The slice
    [self.history[-self.max_history:]] is then [self.history[0:]], the
    whole list, so that after [N] commits on a new history the [N] Turns
    are all there, beyond the capacity. *)
Theorem capacity_zero_never_evicts (rounds : list (string * string * string))
    (w : world) :
  add_interactions rounds (new_history 0, w)
  = (Ok tt,
     (mkHistory (turns_from (ticks w) rounds) 0,
      World (stdout w) (ticks w + List.length rounds) (sent w))).
Proof. unfold new_history. now rewrite add_interactions_zero. Qed.

(** ** Strings and payload shapes *)

Lemma str_app_nil_r (s : string) : s ++ "" = s.
Proof. induction s as [|c s IH]; simpl; congruence. Qed.

Lemma str_app_assoc (s t u : string) : (s ++ t) ++ u = s ++ (t ++ u).
Proof. induction s as [|c s IH]; simpl; congruence. Qed.

Lemma first_choice_inv (chunk : json) (choice : list (string * json)) :
  first_choice chunk = Some choice ->
  exists fields tl,
    chunk = JObj fields /\ lookup "choices" fields = Some (JArr (JObj choice :: tl)).
Proof.
  unfold first_choice; intros H.
  destruct chunk as [| | | | |items|fields]; try discriminate.
  destruct (lookup "choices" fields) as [[| | | | |[|[| | | | | |c] tl]|]|] eqn:E;
    try discriminate.
  injection H as <-. eauto.
Qed.

Lemma choice_has_first (fields choice : list (string * json)) (tl : list json)
    (field : string) :
  lookup "choices" fields = Some (JArr (JObj choice :: tl)) ->
  choice_has field (JObj fields)
  = Ok (match lookup field choice with Some _ => true | None => false end).
Proof. intros H; unfold choice_has; simpl; rewrite H; reflexivity. Qed.

Lemma choice_field_first (fields choice : list (string * json)) (tl : list json)
    (field : string) :
  lookup "choices" fields = Some (JArr (JObj choice :: tl)) ->
  choice_field field (JObj fields)
  = match lookup field choice with Some v => Ok v | None => Raise KeyError end.
Proof. intros H; unfold choice_field; simpl; rewrite H; reflexivity. Qed.

(** The shape behind each classification. *)
Lemma classify_reasoning (chunk : json) (t : string) :
  classify chunk = Some (ReasoningDelta t) ->
  exists fields choice tl delta,
    chunk = JObj fields
    /\ lookup "choices" fields = Some (JArr (JObj choice :: tl))
    /\ (lookup "finish_reason" choice = None
        \/ lookup "finish_reason" choice = Some JNull)
    /\ lookup "delta" choice = Some (JObj delta)
    /\ lookup "reasoning_content" delta = Some (JStr t).
Proof.
  unfold classify; intros H.
  destruct (first_choice chunk) as [choice|] eqn:Ec; [|discriminate].
  apply first_choice_inv in Ec as (fields & tl & -> & Hc).
  exists fields, choice, tl.
  destruct (lookup "finish_reason" choice) as [[]|] eqn:Ef; try discriminate;
    (destruct (lookup "delta" choice) as [[| | | | | |delta]|] eqn:Ed; try discriminate;
     exists delta;
     destruct (lookup "reasoning_content" delta) as [[]|] eqn:Er; try discriminate;
     [ injection H as <-; auto 10
     | destruct (lookup "content" delta) as [[]|]; discriminate ]).
Qed.

Lemma classify_answer (chunk : json) (t : string) :
  classify chunk = Some (AnswerDelta t) ->
  exists fields choice tl delta,
    chunk = JObj fields
    /\ lookup "choices" fields = Some (JArr (JObj choice :: tl))
    /\ (lookup "finish_reason" choice = None
        \/ lookup "finish_reason" choice = Some JNull)
    /\ lookup "delta" choice = Some (JObj delta)
    /\ lookup "reasoning_content" delta = None
    /\ lookup "content" delta = Some (JStr t).
Proof.
  unfold classify; intros H.
  destruct (first_choice chunk) as [choice|] eqn:Ec; [|discriminate].
  apply first_choice_inv in Ec as (fields & tl & -> & Hc).
  exists fields, choice, tl.
  destruct (lookup "finish_reason" choice) as [[]|] eqn:Ef; try discriminate;
    (destruct (lookup "delta" choice) as [[| | | | | |delta]|] eqn:Ed; try discriminate;
     exists delta;
     destruct (lookup "reasoning_content" delta) as [[]|] eqn:Er; try discriminate;
     destruct (lookup "content" delta) as [[]|] eqn:Ect; try discriminate;
     injection H as <-; auto 10).
Qed.

Lemma classify_finish (chunk : json) :
  classify chunk = Some FinishSignal ->
  exists fields choice tl fr,
    chunk = JObj fields
    /\ lookup "choices" fields = Some (JArr (JObj choice :: tl))
    /\ lookup "finish_reason" choice = Some fr
    /\ is_none fr = false.
Proof.
  unfold classify; intros H.
  destruct (first_choice chunk) as [choice|] eqn:Ec; [|discriminate].
  apply first_choice_inv in Ec as (fields & tl & -> & Hc).
  exists fields, choice, tl.
  destruct (lookup "finish_reason" choice) as [fr|] eqn:Ef.
  - exists fr. repeat split; auto.
    destruct fr; try reflexivity.
    destruct (lookup "delta" choice) as [[| | | | | |delta]|]; try discriminate.
    destruct (lookup "reasoning_content" delta) as [[]|]; try discriminate;
      destruct (lookup "content" delta) as [[]|]; discriminate.
  - destruct (lookup "delta" choice) as [[| | | | | |delta]|]; try discriminate.
    destruct (lookup "reasoning_content" delta) as [[]|]; try discriminate;
      destruct (lookup "content" delta) as [[]|]; discriminate.
Qed.

Lemma classify_not_end (chunk : json) : classify chunk <> Some StreamEnd.
Proof.
  unfold classify.
  destruct (first_choice chunk) as [choice|]; [|discriminate].
  destruct (lookup "finish_reason" choice) as [[]|]; try discriminate;
    (destruct (lookup "delta" choice) as [[| | | | | |delta]|]; try discriminate;
     destruct (lookup "reasoning_content" delta) as [[]|]; try discriminate;
     destruct (lookup "content" delta) as [[]|]; discriminate).
Qed.

Lemma classify_not_malformed (chunk : json) (raw : string) :
  classify chunk <> Some (Malformed raw).
Proof.
  unfold classify.
  destruct (first_choice chunk) as [choice|]; [|discriminate].
  destruct (lookup "finish_reason" choice) as [[]|]; try discriminate;
    (destruct (lookup "delta" choice) as [[| | | | | |delta]|]; try discriminate;
     destruct (lookup "reasoning_content" delta) as [[]|]; try discriminate;
     destruct (lookup "content" delta) as [[]|]; discriminate).
Qed.

(** ** One chunk *)

Lemma printed_one (t : string) :
  printed [t] = if String.eqb t "" then [] else [Text t].
Proof. unfold printed; simpl. now destruct (String.eqb t ""). Qed.

Ltac chunk_shape Hc :=
  unfold bind, lift, ret;
  repeat first
    [ rewrite (choice_has_first _ _ Hc)
    | rewrite (choice_field_first _ _ Hc) ].

Lemma reasoning_chunk_reasoning (chunk : json) (t : string)
    (st : reasoning_locals) (w : world) :
  classify chunk = Some (ReasoningDelta t) ->
  reasoning_chunk chunk st w
  = (Ok (Next, ReasoningLocals (reasoning_content st ++ t) (reasoning_finished st)
                 (Some (clock (ticks w)))),
     World (stdout w ++ printed [t]) (S (ticks w)) (sent w)).
Proof.
  intros H.
  apply classify_reasoning in H as (fields & choice & tl & delta & -> & Hc & Hf & Hd & Hr).
  unfold reasoning_chunk. chunk_shape Hc.
  rewrite Hd.
  destruct Hf as [Hf|Hf]; rewrite Hf; simpl; rewrite Hr; simpl;
    rewrite printed_one;
    (destruct (String.eqb_spec t "") as [->|Hne]; simpl;
     [ now rewrite str_app_nil_r, app_nil_r | reflexivity ]).
Qed.

Lemma reasoning_chunk_answer (chunk : json) (x : string)
    (st : reasoning_locals) (w : world) :
  classify chunk = Some (AnswerDelta x) ->
  reasoning_chunk chunk st w
  = (Ok (match last_reasoning_content_time st with
         | Some _ => (Break, ReasoningLocals (reasoning_content st) true
                               (last_reasoning_content_time st))
         | None => (Next, st)
         end), w).
Proof.
  intros H.
  apply classify_answer in H
    as (fields & choice & tl & delta & -> & Hc & Hf & Hd & Hr & Hx).
  unfold reasoning_chunk. chunk_shape Hc.
  rewrite Hd.
  destruct Hf as [Hf|Hf]; rewrite Hf; simpl; rewrite Hr, Hx; simpl;
    now destruct (last_reasoning_content_time st).
Qed.

Lemma reasoning_chunk_finish (chunk : json) (st : reasoning_locals) (w : world) :
  classify chunk = Some FinishSignal ->
  reasoning_chunk chunk st w = (Ok (Break, st), w).
Proof.
  intros H.
  apply classify_finish in H as (fields & choice & tl & fr & -> & Hc & Hf & Hn).
  unfold reasoning_chunk. chunk_shape Hc.
  rewrite Hf, Hn. reflexivity.
Qed.

Lemma answer_chunk_content (chunk : json) (t acc : string) (w : world) :
  delta_content chunk = Some t ->
  answer_chunk chunk acc w
  = (Ok (acc ++ t), World (stdout w ++ printed [t]) (ticks w) (sent w)).
Proof.
  unfold delta_content; intros H.
  destruct (first_choice chunk) as [choice|] eqn:Ec; [|discriminate].
  apply first_choice_inv in Ec as (fields & tl & -> & Hc).
  unfold answer_chunk. chunk_shape Hc.
  assert (Hsame : (Ok acc, w)
                  = (Ok (acc ++ ""), World (stdout w ++ printed [""]) (ticks w) (sent w))).
  { rewrite str_app_nil_r; simpl. rewrite app_nil_r. now destruct w. }
  destruct (lookup "delta" choice) as [[| | | | | |delta]|] eqn:Ed; try discriminate.
  - simpl.
    destruct (lookup "content" delta) as [[| | | |u| |]|] eqn:Ex; try discriminate;
      injection H as <-; simpl; [|exact Hsame].
    rewrite printed_one.
    destruct (String.eqb_spec u "") as [->|Hne]; simpl; [|reflexivity].
    rewrite Hsame. reflexivity.
  - injection H as <-. exact Hsame.
Qed.

Lemma classify_answer_content (chunk : json) (t : string) :
  classify chunk = Some (AnswerDelta t) -> delta_content chunk = Some t.
Proof.
  intros H.
  apply classify_answer in H
    as (fields & choice & tl & delta & -> & Hc & Hf & Hd & Hr & Hx).
  unfold delta_content, first_choice. now rewrite Hc, Hd, Hx.
Qed.

(** ** One line *)

Lemma skipped_false (line : string) :
  skipped line = false ->
  String.eqb line "" = false /\ startswith "data: " line = true.
Proof.
  unfold skipped; intros H.
  apply orb_false_iff in H as [H1 H2].
  apply negb_false_iff in H2. auto.
Qed.

Lemma parse_line_loaded (line : string) (e : StreamEvent) :
  parse_line line = Some e ->
  e <> StreamEnd ->
  (forall raw, e <> Malformed raw) ->
  skipped line = false
  /\ String.eqb (drop 6 line) "[DONE]" = false
  /\ exists chunk, json_loads (drop 6 line) = Loaded chunk /\ classify chunk = Some e.
Proof.
  unfold parse_line; intros H Hend Hbad.
  destruct (skipped line); [discriminate|].
  destruct (String.eqb (drop 6 line) "[DONE]"); [congruence|].
  destruct (json_loads (drop 6 line)) as [chunk|msg|]; try discriminate.
  - eauto.
  - injection H as <-. now destruct (Hbad (drop 6 line)).
Qed.

Lemma parse_line_end (line : string) :
  parse_line line = Some StreamEnd ->
  skipped line = false /\ String.eqb (drop 6 line) "[DONE]" = true.
Proof.
  unfold parse_line; intros H.
  destruct (skipped line); [discriminate|].
  destruct (String.eqb (drop 6 line) "[DONE]"); [auto|].
  destruct (json_loads (drop 6 line)) as [chunk|msg|]; try discriminate.
  now apply classify_not_end in H.
Qed.

Lemma parse_line_malformed (line raw : string) :
  parse_line line = Some (Malformed raw) ->
  skipped line = false
  /\ String.eqb (drop 6 line) "[DONE]" = false
  /\ raw = drop 6 line
  /\ json_loads raw = JSONDecodeError (decode_message raw).
Proof.
  unfold parse_line; intros H.
  destruct (skipped line); [discriminate|].
  destruct (String.eqb (drop 6 line) "[DONE]"); [discriminate|].
  destruct (json_loads (drop 6 line)) as [chunk|msg|] eqn:E; try discriminate.
  - now apply classify_not_malformed in H.
  - assert (Hraw : raw = drop 6 line) by congruence. subst raw.
    repeat split. unfold decode_message. now rewrite E.
Qed.

Lemma reasoning_loop_skipped (line : string) (rest : list string)
    (st : reasoning_locals) :
  skipped line = true ->
  reasoning_loop (line :: rest) st = reasoning_loop rest st.
Proof.
  unfold skipped; intros H; simpl.
  destruct (String.eqb line ""); [reflexivity|].
  simpl in H. apply negb_true_iff in H. now rewrite H.
Qed.

Lemma reasoning_loop_loaded (line : string) (rest : list string)
    (st : reasoning_locals) (chunk : json) :
  skipped line = false ->
  String.eqb (drop 6 line) "[DONE]" = false ->
  json_loads (drop 6 line) = Loaded chunk ->
  reasoning_loop (line :: rest) st
  = (r <- reasoning_chunk chunk st ;;
     match r with
     | (Break, st') =>
         ret (st', rest, if reasoning_finished st' then Transition else Finish)
     | (Next, st') => reasoning_loop rest st'
     end).
Proof.
  intros Hs Hd Hl. apply skipped_false in Hs as [Hs1 Hs2].
  cbn [reasoning_loop]. now rewrite Hs1, Hs2, Hd, Hl.
Qed.

Lemma reasoning_loop_reasoning (line : string) (rest : list string) (t : string)
    (st : reasoning_locals) (w : world) :
  parse_line line = Some (ReasoningDelta t) ->
  reasoning_loop (line :: rest) st w
  = reasoning_loop rest
      (ReasoningLocals (reasoning_content st ++ t) (reasoning_finished st)
         (Some (clock (ticks w))))
      (World (stdout w ++ printed [t]) (S (ticks w)) (sent w)).
Proof.
  intros H.
  apply parse_line_loaded in H as (Hs & Hd & chunk & Hl & Hc); try discriminate.
  rewrite reasoning_loop_loaded with (chunk := chunk) by assumption. unfold bind.
  now rewrite reasoning_chunk_reasoning with (t := t) by assumption.
Qed.

Lemma reasoning_loop_answer_seen (line : string) (rest : list string) (x : string)
    (st : reasoning_locals) (w : world) (seen : timestamp) :
  parse_line line = Some (AnswerDelta x) ->
  last_reasoning_content_time st = Some seen ->
  reasoning_loop (line :: rest) st w
  = (Ok (ReasoningLocals (reasoning_content st) true (Some seen), rest, Transition), w).
Proof.
  intros H Hseen.
  apply parse_line_loaded in H as (Hs & Hd & chunk & Hl & Hc); try discriminate.
  rewrite reasoning_loop_loaded with (chunk := chunk) by assumption. unfold bind.
  rewrite reasoning_chunk_answer with (x := x) by assumption.
  rewrite Hseen. reflexivity.
Qed.

Lemma reasoning_loop_answer_unseen (line : string) (rest : list string) (x : string)
    (st : reasoning_locals) (w : world) :
  parse_line line = Some (AnswerDelta x) ->
  last_reasoning_content_time st = None ->
  reasoning_loop (line :: rest) st w = reasoning_loop rest st w.
Proof.
  intros H Hseen.
  apply parse_line_loaded in H as (Hs & Hd & chunk & Hl & Hc); try discriminate.
  rewrite reasoning_loop_loaded with (chunk := chunk) by assumption. unfold bind.
  rewrite reasoning_chunk_answer with (x := x) by assumption.
  rewrite Hseen. reflexivity.
Qed.

Lemma reasoning_loop_end (line : string) (rest : list string)
    (st : reasoning_locals) (w : world) :
  parse_line line = Some StreamEnd ->
  reasoning_loop (line :: rest) st w = (Ok (st, rest, Done), w).
Proof.
  intros H. apply parse_line_end in H as [Hs Hd].
  apply skipped_false in Hs as [Hs1 Hs2].
  cbn [reasoning_loop]. now rewrite Hs1, Hs2, Hd.
Qed.

Lemma reasoning_loop_malformed (line raw : string) (rest : list string)
    (st : reasoning_locals) (w : world) :
  parse_line line = Some (Malformed raw) ->
  reasoning_loop (line :: rest) st w
  = reasoning_loop rest st
      (World (stdout w ++ [decode_report raw]) (ticks w) (sent w)).
Proof.
  intros H. apply parse_line_malformed in H as (Hs & Hd & -> & Hl).
  apply skipped_false in Hs as [Hs1 Hs2].
  cbn [reasoning_loop]. rewrite Hs1, Hs2, Hd, Hl. unfold bind, print, write.
  now rewrite str_app_assoc.
Qed.

Lemma answer_loop_skipped (line : string) (rest : list string) (acc : string) :
  skipped line = true ->
  answer_loop (line :: rest) acc = answer_loop rest acc.
Proof.
  unfold skipped; intros H; simpl.
  destruct (String.eqb line ""); [reflexivity|].
  simpl in H. apply negb_true_iff in H. now rewrite H.
Qed.

Lemma answer_loop_loaded (line : string) (rest : list string) (acc : string)
    (chunk : json) :
  skipped line = false ->
  String.eqb (drop 6 line) "[DONE]" = false ->
  json_loads (drop 6 line) = Loaded chunk ->
  answer_loop (line :: rest) acc
  = (acc' <- answer_chunk chunk acc ;; answer_loop rest acc').
Proof.
  intros Hs Hd Hl. apply skipped_false in Hs as [Hs1 Hs2].
  cbn [answer_loop]. now rewrite Hs1, Hs2, Hd, Hl.
Qed.

Lemma answer_loop_answer (line : string) (rest : list string) (t acc : string)
    (w : world) :
  parse_line line = Some (AnswerDelta t) ->
  answer_loop (line :: rest) acc w
  = answer_loop rest (acc ++ t) (World (stdout w ++ printed [t]) (ticks w) (sent w)).
Proof.
  intros H.
  apply parse_line_loaded in H as (Hs & Hd & chunk & Hl & Hc); try discriminate.
  rewrite answer_loop_loaded with (chunk := chunk) by assumption. unfold bind.
  rewrite answer_chunk_content with (t := t); [reflexivity|].
  now apply classify_answer_content.
Qed.

Lemma answer_loop_malformed (line raw : string) (rest : list string) (acc : string)
    (w : world) :
  parse_line line = Some (Malformed raw) ->
  answer_loop (line :: rest) acc w
  = answer_loop rest acc (World (stdout w ++ [decode_report raw]) (ticks w) (sent w)).
Proof.
  intros H. apply parse_line_malformed in H as (Hs & Hd & -> & Hl).
  apply skipped_false in Hs as [Hs1 Hs2].
  cbn [answer_loop]. rewrite Hs1, Hs2, Hd, Hl. unfold bind, print, write, decode_report.
  now rewrite str_app_assoc.
Qed.

Lemma answer_loop_end (line : string) (rest : list string) (acc : string) (w : world) :
  parse_line line = Some StreamEnd ->
  answer_loop (line :: rest) acc w = (Ok (acc, rest, Done), w).
Proof.
  intros H. apply parse_line_end in H as [Hs Hd].
  apply skipped_false in Hs as [Hs1 Hs2].
  cbn [answer_loop]. now rewrite Hs1, Hs2, Hd.
Qed.

(** ** Runs of lines *)

Lemma printed_app (ts us : list string) :
  printed (ts ++ us) = (printed ts ++ printed us)%list.
Proof. unfold printed. now rewrite filter_app, map_app. Qed.

Lemma events_of_cons (line : string) (pre : list string) (es : list StreamEvent) :
  events_of (line :: pre) = Some es ->
  (skipped line = true /\ events_of pre = Some es)
  \/ (exists e es', es = e :: es' /\ parse_line line = Some e
                    /\ events_of pre = Some es').
Proof.
  simpl. destruct (skipped line); [auto|].
  destruct (parse_line line) as [e|]; [|discriminate].
  destruct (events_of pre) as [es'|]; [|discriminate].
  intros H; injection H as <-. right; eauto.
Qed.

(** A run of reasoning deltas (and skipped lines) is consumed entirely:
    every text is appended, the non-empty ones are printed, and each
    delta reads the clock. *)
Lemma reasoning_loop_deltas (pre : list string) :
  forall (ts : list string) (rest : list string) (st : reasoning_locals) (w : world),
    events_of pre = Some (map ReasoningDelta ts) ->
    reasoning_loop (pre ++ rest) st w
    = reasoning_loop rest
        (ReasoningLocals (reasoning_content st ++ joined ts) (reasoning_finished st)
           (stamped (last_reasoning_content_time st) (ticks w) (List.length ts)))
        (World (stdout w ++ printed ts) (ticks w + List.length ts) (sent w)).
Proof.
  induction pre as [|line pre IH]; intros ts rest st w H.
  - simpl in H. destruct ts; [|discriminate]. simpl.
    rewrite str_app_nil_r, app_nil_r, Nat.add_0_r. now destruct st, w.
  - apply events_of_cons in H as [[Hs H]|(e & es' & Hes & He & H)].
    + simpl app. rewrite reasoning_loop_skipped by assumption. now apply IH.
    + destruct ts as [|t ts]; [discriminate|]. simpl in Hes.
      injection Hes as <- <-.
      simpl app. rewrite reasoning_loop_reasoning with (t := t) by assumption.
      rewrite (IH ts) by assumption. simpl.
      rewrite str_app_assoc, <- app_assoc, <- printed_app. simpl app.
      f_equal; [f_equal|f_equal; lia].
      destruct ts; simpl; f_equal; f_equal; lia.
Qed.

(** A run of answer deltas and malformed lines (and skipped lines) is
    consumed entirely by the answer loop. *)
Lemma answer_loop_events (pre : list string) :
  forall (es : list StreamEvent) (rest : list string) (acc : string) (w : world),
    events_of pre = Some es ->
    forallb answer_event es = true ->
    answer_loop (pre ++ rest) acc w
    = answer_loop rest (acc ++ answer_text es)
        (World (stdout w ++ answer_output es) (ticks w) (sent w)).
Proof.
  induction pre as [|line pre IH]; intros es rest acc w H Hes.
  - simpl in H. injection H as <-. simpl.
    rewrite str_app_nil_r, app_nil_r. now destruct w.
  - apply events_of_cons in H as [[Hs H]|(e & es' & -> & He & H)].
    + simpl app. rewrite answer_loop_skipped by assumption. now apply IH.
    + simpl in Hes. apply andb_true_iff in Hes as [Hev Hes].
      destruct e as [t|t| | |raw]; try discriminate; simpl app.
      * rewrite answer_loop_answer with (t := t) by assumption.
        rewrite (IH es') by assumption. simpl.
        now rewrite str_app_assoc, <- app_assoc.
      * rewrite answer_loop_malformed with (raw := raw) by assumption.
        rewrite (IH es') by assumption. simpl.
        now rewrite <- app_assoc.
Qed.

(** ** The stages *)

Lemma reasoning_stage_ok (prompt : string) (ch : option ConversationHistory)
    (w : world) (r : response) :
  requests_post (sent w) (deepseek_request prompt ch) = Ok r ->
  status_code r = 200 ->
  get_deepseek_reasoning_stream prompt ch w
  = match reasoning_loop (iter_lines r) reasoning_init
            (begun w reasoning_banner (deepseek_request prompt ch)) with
    | (Ok (st, rest, how), w') =>
        (Ok (StageEnd (Some (reasoning_content st)) how
               (Connection rest (match how with Exhausted => true | _ => false end)
                  (reasoning_finished st))),
         ended w')
    | (Raise e, w') => (Raise e, w')
    end.
Proof.
  intros Hpost Hstatus.
  unfold get_deepseek_reasoning_stream, bind, print, write, post; simpl.
  rewrite Hpost, Hstatus; simpl.
  unfold begun, reasoning_banner; simpl.
  destruct (reasoning_loop _ _ _) as [[[[st rest] how]|e] w']; reflexivity.
Qed.

Lemma answer_stage_ok (prompt rtext : string) (ch : option ConversationHistory)
    (w : world) (r : response) :
  requests_post (sent w) (openai_request prompt rtext ch) = Ok r ->
  status_code r = 200 ->
  get_openai_answer_stream prompt rtext ch w
  = match answer_loop (iter_lines r) ""
            (begun w answer_banner (openai_request prompt rtext ch)) with
    | (Ok (ans, rest, how), w') =>
        (Ok (StageEnd (Some ans) how
               (Connection rest (match how with Exhausted => true | _ => false end)
                  false)),
         ended w')
    | (Raise e, w') => (Raise e, w')
    end.
Proof.
  intros Hpost Hstatus.
  unfold get_openai_answer_stream, bind, print, write, post; simpl.
  rewrite Hpost, Hstatus; simpl.
  unfold begun, answer_banner; simpl.
  destruct (answer_loop _ _ _) as [[[[ans rest] how]|e] w']; reflexivity.
Qed.

(** C1: when the stream parses to [ReasoningDelta a; ReasoningDelta b;
    AnswerDelta x; ...], the reasoning stage returns [a ++ b], stops at
    the answer delta (the lines after it are left unread, whatever they
    are) and closes the connection. *)
Theorem reasoning_stops_at_answer_delta (prompt : string)
    (ch : option ConversationHistory) (w : world) (r : response)
    (pre rest : list string) (line a b x : string) :
  requests_post (sent w) (deepseek_request prompt ch) = Ok r ->
  status_code r = 200 ->
  iter_lines r = (pre ++ line :: rest)%list ->
  events_of pre = Some [ReasoningDelta a; ReasoningDelta b] ->
  parse_line line = Some (AnswerDelta x) ->
  get_deepseek_reasoning_stream prompt ch w
  = (Ok (StageEnd (Some (a ++ b)) Transition (Connection rest false true)),
     World (stdout w ++ [Text (reasoning_banner ++ newline)] ++ printed [a; b]
              ++ [Text (newline ++ newline)])
           (ticks w + 2)
           (sent w ++ [deepseek_request prompt ch])).
Proof.
  intros Hpost Hstatus Hlines Hpre Hline.
  rewrite reasoning_stage_ok with (r := r) by assumption.
  rewrite Hlines, reasoning_loop_deltas with (ts := [a; b]) by assumption.
  simpl stamped.
  erewrite reasoning_loop_answer_seen by (eassumption || reflexivity).
  unfold ended, begun; simpl.
  rewrite str_app_nil_r, <- !app_assoc. reflexivity.
Qed.

(** C2: a reasoning delta with the empty text records that reasoning was
    seen (the time stamp is set) and appends and prints nothing; after
    any positive number of such deltas an answer delta stops the stage
    early, with the empty text as its result. *)
Theorem empty_reasoning_delta_counts (prompt : string)
    (ch : option ConversationHistory) (w : world) (r : response)
    (pre rest : list string) (line x : string) (n : nat) :
  requests_post (sent w) (deepseek_request prompt ch) = Ok r ->
  status_code r = 200 ->
  iter_lines r = (pre ++ line :: rest)%list ->
  events_of pre = Some (repeat (ReasoningDelta "") (S n)) ->
  parse_line line = Some (AnswerDelta x) ->
  get_deepseek_reasoning_stream prompt ch w
  = (Ok (StageEnd (Some "") Transition (Connection rest false true)),
     World (stdout w ++ [Text (reasoning_banner ++ newline)]
              ++ [Text (newline ++ newline)])
           (ticks w + S n)
           (sent w ++ [deepseek_request prompt ch]))
  /\ forall (l : string) (ls : list string) (st : reasoning_locals) (w0 : world),
       parse_line l = Some (ReasoningDelta "") ->
       reasoning_loop (l :: ls) st w0
       = reasoning_loop ls
           (ReasoningLocals (reasoning_content st) (reasoning_finished st)
              (Some (clock (ticks w0))))
           (World (stdout w0) (S (ticks w0)) (sent w0)).
Proof.
  intros Hpost Hstatus Hlines Hpre Hline. split.
  - rewrite reasoning_stage_ok with (r := r) by assumption.
    assert (Hrep : repeat (ReasoningDelta "") (S n)
                   = map ReasoningDelta (repeat "" (S n)))
      by (clear; induction n; simpl in *; congruence).
    rewrite Hrep in Hpre.
    rewrite Hlines, reasoning_loop_deltas with (ts := repeat "" (S n)) by assumption.
    rewrite repeat_length. cbn [stamped].
    erewrite reasoning_loop_answer_seen by (eassumption || reflexivity).
    assert (Hj : joined (repeat "" (S n)) = "")
      by (clear; induction n; simpl in *; auto).
    assert (Hp : printed (repeat "" (S n)) = [])
      by (clear; induction n; simpl in *; auto).
    unfold ended, begun. cbn [stdout ticks sent reasoning_content reasoning_init].
    rewrite Hj, Hp, app_nil_r, <- app_assoc. reflexivity.
  - intros l ls st w0 Hl.
    rewrite reasoning_loop_reasoning with (t := "") by assumption.
    now rewrite str_app_nil_r, printed_one, app_nil_r.
Qed.

(** C8: with a success status and the events [ReasoningDelta ""; StreamEnd],
    the reasoning stage returns the empty text, not [None] and not an
    exception. *)
Theorem empty_reasoning_is_a_result (prompt : string)
    (ch : option ConversationHistory) (w : world) (r : response)
    (pre rest : list string) (line : string) :
  requests_post (sent w) (deepseek_request prompt ch) = Ok r ->
  status_code r = 200 ->
  iter_lines r = (pre ++ line :: rest)%list ->
  events_of pre = Some [ReasoningDelta ""] ->
  parse_line line = Some StreamEnd ->
  get_deepseek_reasoning_stream prompt ch w
  = (Ok (StageEnd (Some "") Done (Connection rest false false)),
     World (stdout w ++ [Text (reasoning_banner ++ newline)]
              ++ [Text (newline ++ newline)])
           (ticks w + 1)
           (sent w ++ [deepseek_request prompt ch])).
Proof.
  intros Hpost Hstatus Hlines Hpre Hline.
  rewrite reasoning_stage_ok with (r := r) by assumption.
  rewrite Hlines, reasoning_loop_deltas with (ts := [""]) by assumption.
  rewrite reasoning_loop_end by assumption.
  unfold ended, begun; simpl.
  rewrite app_nil_r, <- app_assoc. reflexivity.
Qed.

(** C10: while no reasoning delta has been seen, an answer delta is
    passed over by the reasoning loop: nothing is accumulated or printed,
    the loop does not stop, and it goes on with the next line. *)
Theorem answer_delta_before_reasoning_ignored (pre rest : list string)
    (line x : string) (st : reasoning_locals) (w : world) :
  last_reasoning_content_time st = None ->
  events_of pre = Some [] ->
  parse_line line = Some (AnswerDelta x) ->
  reasoning_loop (pre ++ line :: rest) st w = reasoning_loop rest st w.
Proof.
  intros Hnone Hpre Hline.
  rewrite reasoning_loop_deltas with (ts := []) by assumption.
  simpl. rewrite str_app_nil_r, app_nil_r, Nat.add_0_r.
  replace (ReasoningLocals (reasoning_content st) (reasoning_finished st)
             (last_reasoning_content_time st)) with st by now destruct st.
  replace (World (stdout w) (ticks w) (sent w)) with w by now destruct w.
  now apply reasoning_loop_answer_unseen with (x := x).
Qed.

(** C6, as the code has it: the answer loop does not look at
    [finish_reason].  On a FinishSignal event it does not stop: the text
    that the delta of the chunk carries under [content] (empty when there
    is none) is appended, and printed when not empty, and the loop goes
    on with the next line. *)
Theorem answer_loop_passes_finish_signal (line t acc : string)
    (rest : list string) (w : world) :
  parse_line line = Some FinishSignal ->
  line_content line = Some t ->
  answer_loop (line :: rest) acc w
  = answer_loop rest (acc ++ t)
      (World (stdout w ++ printed [t]) (ticks w) (sent w)).
Proof.
  intros Hline Hcontent.
  apply parse_line_loaded in Hline as (Hs & Hd & chunk & Hl & Hc); try discriminate.
  unfold line_content in Hcontent. rewrite Hs, Hl in Hcontent.
  rewrite answer_loop_loaded with (chunk := chunk) by assumption. unfold bind.
  now rewrite answer_chunk_content with (t := t) by assumption.
Qed.

(** ** Exit paths *)

Ltac break_match_in H :=
  match type of H with
  | context [match ?x with _ => _ end] => destruct x eqn:?
  end.

Lemma reasoning_chunk_next (chunk : json) (st st' : reasoning_locals) (w w' : world) :
  reasoning_chunk chunk st w = (Ok (Next, st'), w') ->
  reasoning_finished st' = reasoning_finished st.
Proof.
  intros H.
  cbv beta iota delta [reasoning_chunk bind lift ret time_time print_end write] in H.
  repeat (break_match_in H; try discriminate; simpl in H);
    injection H as <- <-; reflexivity.
Qed.

Lemma reasoning_loop_exit (lines : list string) :
  forall (st st' : reasoning_locals) (w w' : world) (rest : list string)
         (how : exit_path),
    reasoning_finished st = false ->
    reasoning_loop lines st w = (Ok (st', rest, how), w') ->
    reasoning_finished st' = match how with Transition => true | _ => false end
    /\ (how = Exhausted -> rest = [])
    /\ how <> BadStatus
    /\ exists pre, lines = (pre ++ rest)%list.
Proof.
  induction lines as [|line lines IH]; intros st st' w w' rest how Hst H.
  - injection H as <- <- <- <-. repeat split; auto; try discriminate. now exists [].
  - assert (Hnext : forall s0 w0,
               reasoning_finished s0 = false ->
               reasoning_loop lines s0 w0 = (Ok (st', rest, how), w') ->
               reasoning_finished st' = match how with Transition => true | _ => false end
               /\ (how = Exhausted -> rest = [])
               /\ how <> BadStatus
               /\ exists pre, (line :: lines) = (pre ++ rest)%list).
    { intros s0 w0 Hs0 Hrun.
      destruct (IH _ _ _ _ _ _ Hs0 Hrun) as (H1 & H2 & H3 & pre & ->).
      repeat split; auto. now exists (line :: pre). }
    cbn [reasoning_loop] in H.
    destruct (String.eqb line ""); [now apply Hnext with (s0 := st) (w0 := w)|].
    destruct (startswith "data: " line); [|now apply Hnext with (s0 := st) (w0 := w)].
    destruct (String.eqb (drop 6 line) "[DONE]").
    + injection H as <- <- <- <-. repeat split; auto; try discriminate. now exists [line].
    + destruct (json_loads (drop 6 line)) as [chunk|msg|].
      * unfold bind in H.
        destruct (reasoning_chunk chunk st w) as [[[[|] s1]|e] w1] eqn:Hchunk;
          try discriminate.
        -- apply reasoning_chunk_next in Hchunk.
           apply Hnext with (s0 := s1) (w0 := w1); congruence.
        -- injection H as <- <- <- <-.
           destruct (reasoning_finished s1); repeat split; auto; try discriminate;
             now exists [line].
      * unfold bind in H. simpl in H.
        now apply Hnext with (s0 := st) (w0 := World (stdout w ++ [Text (("Error decoding JSON: " ++ msg) ++ newline)]) (ticks w) (sent w)).
      * discriminate.
Qed.

Lemma answer_loop_exit (lines : list string) :
  forall (acc ans : string) (w w' : world) (rest : list string) (how : exit_path),
    answer_loop lines acc w = (Ok (ans, rest, how), w') ->
    ((how = Exhausted /\ rest = []) \/ how = Done)
    /\ exists pre, lines = (pre ++ rest)%list.
Proof.
  induction lines as [|line lines IH]; intros acc ans w w' rest how H.
  - injection H as <- <- <- <-. split; auto. now exists [].
  - assert (Hnext : forall a0 w0,
               answer_loop lines a0 w0 = (Ok (ans, rest, how), w') ->
               ((how = Exhausted /\ rest = []) \/ how = Done)
               /\ exists pre, (line :: lines) = (pre ++ rest)%list).
    { intros a0 w0 Hrun.
      destruct (IH _ _ _ _ _ _ Hrun) as (H1 & pre & ->).
      split; auto. now exists (line :: pre). }
    cbn [answer_loop] in H.
    destruct (String.eqb line ""); [now apply Hnext with (a0 := acc) (w0 := w)|].
    destruct (startswith "data: " line); [|now apply Hnext with (a0 := acc) (w0 := w)].
    destruct (String.eqb (drop 6 line) "[DONE]").
    + injection H as <- <- <- <-. split; auto. now exists [line].
    + destruct (json_loads (drop 6 line)) as [chunk|msg|].
      * unfold bind in H.
        destruct (answer_chunk chunk acc w) as [[a1|e] w1]; try discriminate.
        now apply Hnext with (a0 := a1) (w0 := w1).
      * unfold bind in H. simpl in H.
        now apply Hnext with (a0 := acc) (w0 := World (stdout w ++ [Text (("Error decoding JSON: " ++ msg) ++ newline)]) (ticks w) (sent w)).
      * discriminate.
Qed.

Lemma reasoning_stage_bad (prompt : string) (ch : option ConversationHistory)
    (w : world) (r : response) :
  requests_post (sent w) (deepseek_request prompt ch) = Ok r ->
  status_code r <> 200 ->
  get_deepseek_reasoning_stream prompt ch w
  = (Ok (StageEnd None BadStatus (Connection [] true false)),
     failed w reasoning_banner "DeepSeek API Error: " (deepseek_request prompt ch) r).
Proof.
  intros Hpost Hstatus. apply Z.eqb_neq in Hstatus.
  unfold get_deepseek_reasoning_stream, bind, print, write, post; simpl.
  rewrite Hpost, Hstatus; simpl.
  unfold failed, reasoning_banner; simpl. now rewrite <- !app_assoc.
Qed.

Lemma answer_stage_bad (prompt rtext : string) (ch : option ConversationHistory)
    (w : world) (r : response) :
  requests_post (sent w) (openai_request prompt rtext ch) = Ok r ->
  status_code r <> 200 ->
  get_openai_answer_stream prompt rtext ch w
  = (Ok (StageEnd None BadStatus (Connection [] true false)),
     failed w answer_banner "OpenAI API Error: " (openai_request prompt rtext ch) r).
Proof.
  intros Hpost Hstatus. apply Z.eqb_neq in Hstatus.
  unfold get_openai_answer_stream, bind, print, write, post; simpl.
  rewrite Hpost, Hstatus; simpl.
  unfold failed, answer_banner; simpl. now rewrite <- !app_assoc.
Qed.

Lemma reasoning_stage_raise (prompt : string) (ch : option ConversationHistory)
    (w : world) (ex : exn) :
  requests_post (sent w) (deepseek_request prompt ch) = Raise ex ->
  fst (get_deepseek_reasoning_stream prompt ch w) = Raise ex.
Proof.
  intros Hpost.
  unfold get_deepseek_reasoning_stream, bind, print, write, post; simpl.
  now rewrite Hpost.
Qed.

Lemma answer_stage_raise (prompt rtext : string) (ch : option ConversationHistory)
    (w : world) (ex : exn) :
  requests_post (sent w) (openai_request prompt rtext ch) = Raise ex ->
  fst (get_openai_answer_stream prompt rtext ch w) = Raise ex.
Proof.
  intros Hpost.
  unfold get_openai_answer_stream, bind, print, write, post; simpl.
  now rewrite Hpost.
Qed.

(** The [finish_reason] break of the reasoning stage: the loop is left
    with [reasoning_finished] still false, so that [close] is not called,
    and the lines after the finish chunk stay unread. *)
Lemma finish_signal_returns_without_close (prompt : string)
    (ch : option ConversationHistory) (w : world) (r : response)
    (pre rest : list string) (line : string) (ts : list string) :
  requests_post (sent w) (deepseek_request prompt ch) = Ok r ->
  status_code r = 200 ->
  iter_lines r = (pre ++ line :: rest)%list ->
  events_of pre = Some (map ReasoningDelta ts) ->
  parse_line line = Some FinishSignal ->
  fst (get_deepseek_reasoning_stream prompt ch w)
  = Ok (StageEnd (Some (joined ts)) Finish (Connection rest false false)).
Proof.
  intros Hpost Hstatus Hlines Hpre Hline.
  rewrite reasoning_stage_ok with (r := r) by assumption.
  rewrite Hlines, reasoning_loop_deltas with (ts := ts) by assumption.
  apply parse_line_loaded in Hline as (Hs & Hd & chunk & Hl & Hc); try discriminate.
  rewrite reasoning_loop_loaded with (chunk := chunk) by assumption. unfold bind.
  rewrite reasoning_chunk_finish by assumption. reflexivity.
Qed.

(** ** process_question *)



(** ** Runs of events in the reasoning stage *)

Lemma seen_last_stamp (es : list StreamEvent) :
  forall (last : option timestamp) (n : nat),
    seen (last_stamp last n es) = seen last || negb (Nat.eqb (reasoning_reads es) 0).
Proof.
  induction es as [|e es IH]; intros last n; simpl.
  - now rewrite orb_false_r.
  - destruct e; simpl; rewrite ?IH; simpl; try reflexivity.
    now rewrite orb_true_r.
Qed.

(** A run of events over which the loop does not stop is consumed
    entirely. *)
Lemma reasoning_loop_quiet (pre : list string) :
  forall (es : list StreamEvent) (rest : list string) (st : reasoning_locals)
         (w : world),
    events_of pre = Some es ->
    quiet (seen (last_reasoning_content_time st)) es = true ->
    reasoning_loop (pre ++ rest) st w
    = reasoning_loop rest
        (ReasoningLocals (reasoning_content st ++ reasoning_text es)
           (reasoning_finished st)
           (last_stamp (last_reasoning_content_time st) (ticks w) es))
        (World (stdout w ++ reasoning_output es) (ticks w + reasoning_reads es)
               (sent w)).
Proof.
  induction pre as [|line pre IH]; intros es rest st w H Hq.
  - simpl in H. injection H as <-. simpl.
    rewrite str_app_nil_r, app_nil_r, Nat.add_0_r. now destruct st, w.
  - apply events_of_cons in H as [[Hs H]|(e & es' & -> & He & H)].
    + simpl app. rewrite reasoning_loop_skipped by assumption. now apply IH.
    + destruct e as [t|x| | |raw]; simpl in Hq; try discriminate; simpl app.
      * rewrite reasoning_loop_reasoning with (t := t) by assumption.
        rewrite (IH es') by assumption. simpl.
        rewrite str_app_assoc, <- app_assoc.
        f_equal. f_equal. lia.
      * apply andb_true_iff in Hq as [Hnone Hq].
        destruct (last_reasoning_content_time st) eqn:Hlast; [discriminate|].
        rewrite reasoning_loop_answer_unseen with (x := x) by assumption.
        rewrite (IH es') by (rewrite ?Hlast; assumption).
        simpl. now rewrite Hlast.
      * rewrite reasoning_loop_malformed with (raw := raw) by assumption.
        rewrite (IH es') by assumption. simpl.
        now rewrite <- app_assoc.
Qed.

Lemma reasoning_loop_finish (line : string) (rest : list string)
    (st : reasoning_locals) (w : world) :
  reasoning_finished st = false ->
  parse_line line = Some FinishSignal ->
  reasoning_loop (line :: rest) st w = (Ok (st, rest, Finish), w).
Proof.
  intros Hfin H.
  apply parse_line_loaded in H as (Hs & Hd & chunk & Hl & Hc); try discriminate.
  rewrite reasoning_loop_loaded with (chunk := chunk) by assumption. unfold bind.
  rewrite reasoning_chunk_finish by assumption. unfold ret. now rewrite Hfin.
Qed.

(** X1: the reasoning stage stops at the first event that ends it.  When
    the lines before it parse to reasoning deltas, malformed lines and
    answer deltas that precede every reasoning delta, the stage returns
    the concatenation of the reasoning texts, has printed the non-empty
    texts and the decode reports in their order of arrival, has read the
    clock once per reasoning delta, leaves the lines after the stopping
    line unread, and has called [close] exactly when the stopping event
    is an answer delta. *)
Theorem reasoning_stage_stops_at_first_end (prompt : string)
    (ch : option ConversationHistory) (w : world) (r : response)
    (pre rest : list string) (line : string) (es : list StreamEvent)
    (e : StreamEvent) (how : exit_path) :
  requests_post (sent w) (deepseek_request prompt ch) = Ok r ->
  status_code r = 200 ->
  iter_lines r = (pre ++ line :: rest)%list ->
  events_of pre = Some es ->
  quiet false es = true ->
  parse_line line = Some e ->
  stops (negb (Nat.eqb (reasoning_reads es) 0)) e = Some how ->
  get_deepseek_reasoning_stream prompt ch w
  = (Ok (StageEnd (Some (reasoning_text es)) how
           (Connection rest false (is_transition how))),
     World (stdout w ++ [Text (reasoning_banner ++ newline)] ++ reasoning_output es
              ++ [Text (newline ++ newline)])
           (ticks w + reasoning_reads es)
           (sent w ++ [deepseek_request prompt ch])).
Proof.
  intros Hpost Hstatus Hlines Hpre Hq Hline Hstop.
  rewrite reasoning_stage_ok with (r := r) by assumption.
  rewrite Hlines, reasoning_loop_quiet with (es := es) by assumption.
  cbn [reasoning_init reasoning_content reasoning_finished
       last_reasoning_content_time begun stdout ticks sent].
  assert (Hseen := seen_last_stamp es None (ticks w)). simpl in Hseen.
  destruct e as [t|x| | |raw]; simpl in Hstop; try discriminate.
  - destruct (negb (Nat.eqb (reasoning_reads es) 0)) eqn:Hhad; [|discriminate].
    injection Hstop as <-.
    destruct (last_stamp None (ticks w) es) as [stamp|] eqn:Hlast; [|discriminate].
    rewrite reasoning_loop_answer_seen with (x := x) (seen := stamp)
      by (assumption || reflexivity).
    unfold ended; simpl. now rewrite <- !app_assoc.
  - injection Hstop as <-.
    rewrite reasoning_loop_finish by (assumption || reflexivity).
    unfold ended; simpl. now rewrite <- !app_assoc.
  - injection Hstop as <-.
    rewrite reasoning_loop_end by assumption.
    unfold ended; simpl. now rewrite <- !app_assoc.
Qed.

(** X2: when the stream runs out without any event that ends the stage,
    the reasoning stage still returns the concatenation of the reasoning
    texts it met; the iterator was read to its end and [close] was not
    called. *)
Theorem reasoning_stage_runs_out (prompt : string)
    (ch : option ConversationHistory) (w : world) (r : response)
    (es : list StreamEvent) :
  requests_post (sent w) (deepseek_request prompt ch) = Ok r ->
  status_code r = 200 ->
  events_of (iter_lines r) = Some es ->
  quiet false es = true ->
  get_deepseek_reasoning_stream prompt ch w
  = (Ok (StageEnd (Some (reasoning_text es)) Exhausted (Connection [] true false)),
     World (stdout w ++ [Text (reasoning_banner ++ newline)] ++ reasoning_output es
              ++ [Text (newline ++ newline)])
           (ticks w + reasoning_reads es)
           (sent w ++ [deepseek_request prompt ch])).
Proof.
  intros Hpost Hstatus Hpre Hq.
  rewrite reasoning_stage_ok with (r := r) by assumption.
  rewrite <- (app_nil_r (iter_lines r)).
  rewrite reasoning_loop_quiet with (es := es) by assumption.
  cbn [reasoning_loop ret reasoning_init reasoning_content reasoning_finished
       last_reasoning_content_time begun stdout ticks sent].
  unfold ended; simpl. now rewrite <- !app_assoc.
Qed.

(** X3: on a stream of answer deltas and malformed lines that ends with
    the [[DONE]] line or runs out, the answer stage returns the
    concatenation of the delta texts, in their order, and has printed
    the non-empty texts and the decode reports in their order of arrival;
    the lines after [[DONE]] are left unread and [close] is not called. *)
Theorem answer_stage_collects_deltas (prompt rtext : string)
    (ch : option ConversationHistory) (w : world) (r : response)
    (pre tail : list string) (es : list StreamEvent) :
  requests_post (sent w) (openai_request prompt rtext ch) = Ok r ->
  status_code r = 200 ->
  iter_lines r = (pre ++ tail)%list ->
  events_of pre = Some es ->
  forallb answer_event es = true ->
  ends_here tail = true ->
  get_openai_answer_stream prompt rtext ch w
  = (Ok (StageEnd (Some (answer_text es))
           (match tail with [] => Exhausted | _ => Done end)
           (Connection (tl tail) (match tail with [] => true | _ => false end) false)),
     World (stdout w ++ [Text (answer_banner ++ newline)] ++ answer_output es
              ++ [Text (newline ++ newline)])
           (ticks w)
           (sent w ++ [openai_request prompt rtext ch])).
Proof.
  intros Hpost Hstatus Hlines Hpre Hes Htail.
  rewrite answer_stage_ok with (r := r) by assumption.
  rewrite Hlines, answer_loop_events with (es := es) by assumption.
  destruct tail as [|line rest].
  - cbn [answer_loop ret]. unfold ended, begun; simpl. now rewrite <- !app_assoc.
  - unfold ends_here in Htail.
    destruct (parse_line line) as [[]|] eqn:Hl; try discriminate.
    rewrite answer_loop_end by assumption.
    unfold ended, begun; simpl. now rewrite <- !app_assoc.
Qed.

(** ** Payloads outside the documented shape *)

Lemma decoded_some (line : string) (chunk : json) :
  decoded line = Some chunk ->
  skipped line = false
  /\ String.eqb (drop 6 line) "[DONE]" = false
  /\ json_loads (drop 6 line) = Loaded chunk.
Proof.
  unfold decoded; intros H.
  destruct (skipped line); [discriminate|].
  destruct (String.eqb (drop 6 line) "[DONE]"); [discriminate|].
  destruct (json_loads (drop 6 line)); try discriminate.
  injection H as <-. auto.
Qed.

(** X4: a data line whose payload decodes to [None], a boolean or a
    number makes either loop raise [TypeError] at once (['choices' in
    chunk] on a value that is not a container); the handler of
    [JSONDecodeError] does not catch it, and nothing is printed. *)
Theorem scalar_payload_raises (line : string) (rest : list string)
    (st : reasoning_locals) (acc : string) (w : world) :
  decodes_to scalar line = true ->
  reasoning_loop (line :: rest) st w = (Raise TypeError, w)
  /\ answer_loop (line :: rest) acc w = (Raise TypeError, w).
Proof.
  unfold decodes_to; intros H.
  destruct (decoded line) as [chunk|] eqn:Hd; [|discriminate].
  apply decoded_some in Hd as (Hs & Hdone & Hl).
  rewrite reasoning_loop_loaded with (chunk := chunk) by assumption.
  rewrite answer_loop_loaded with (chunk := chunk) by assumption.
  destruct chunk; try discriminate; split; reflexivity.
Qed.

(** X5: a chunk without [choices] (the key is missing, or its value is
    an empty list, [None] or another false value) is passed over by both
    loops: nothing is appended or printed, the clock is not read, and
    the loop goes on with the next line. *)
Theorem chunk_without_choices_passed (line : string) (rest : list string)
    (st : reasoning_locals) (acc : string) (w : world) :
  decodes_to no_choices line = true ->
  reasoning_loop (line :: rest) st w = reasoning_loop rest st w
  /\ answer_loop (line :: rest) acc w = answer_loop rest acc w.
Proof.
  unfold decodes_to; intros H.
  destruct (decoded line) as [chunk|] eqn:Hd; [|discriminate].
  apply decoded_some in Hd as (Hs & Hdone & Hl).
  rewrite reasoning_loop_loaded with (chunk := chunk) by assumption.
  rewrite answer_loop_loaded with (chunk := chunk) by assumption.
  assert (Hhas : forall field, choice_has field chunk = Ok false).
  { intros field. unfold choice_has.
    destruct chunk as [| | | |s|items|fields]; try discriminate; simpl in *.
    - apply negb_true_iff in H. now rewrite H.
    - apply negb_true_iff in H. now rewrite H.
    - destruct (lookup "choices" fields) as [c|]; [|reflexivity].
      simpl. now rewrite H. }
  unfold reasoning_chunk, answer_chunk, bind, lift, ret.
  rewrite !Hhas. split; reflexivity.
Qed.

Lemma reasoning_loop_silent (line : string) (rest : list string)
    (st : reasoning_locals) (w : world) :
  decodes_to silent_reasoning line = true ->
  reasoning_loop (line :: rest) st w
  = reasoning_loop rest
      (ReasoningLocals (reasoning_content st) (reasoning_finished st)
         (Some (clock (ticks w))))
      (World (stdout w) (S (ticks w)) (sent w)).
Proof.
  unfold decodes_to; intros H.
  destruct (decoded line) as [chunk|] eqn:Hd; [|discriminate].
  apply decoded_some in Hd as (Hs & Hdone & Hl).
  rewrite reasoning_loop_loaded with (chunk := chunk) by assumption.
  unfold silent_reasoning in H.
  destruct (first_choice chunk) as [choice|] eqn:Ec; [|discriminate].
  apply first_choice_inv in Ec as (fields & tl & -> & Hc).
  unfold reasoning_chunk. chunk_shape Hc.
  destruct (lookup "finish_reason" choice) as [[]|] eqn:Ef; try discriminate;
    (destruct (lookup "delta" choice) as [[| | | | | |delta]|] eqn:Ed;
       try discriminate;
     destruct (lookup "reasoning_content" delta) as [v|] eqn:Er; try discriminate;
     apply negb_true_iff in H;
     repeat progress (simpl; rewrite ?Er, ?H);
     reflexivity).
Qed.

Lemma reasoning_loop_silent_run (mid : list string) :
  forall (rest : list string) (st : reasoning_locals) (w : world),
    forallb (fun line => skipped line || decodes_to silent_reasoning line) mid = true ->
    reasoning_loop (mid ++ rest) st w
    = reasoning_loop rest
        (ReasoningLocals (reasoning_content st) (reasoning_finished st)
           (stamped (last_reasoning_content_time st) (ticks w)
              (List.length (filter (decodes_to silent_reasoning) mid))))
        (World (stdout w)
           (ticks w + List.length (filter (decodes_to silent_reasoning) mid))
           (sent w)).
Proof.
  induction mid as [|line mid IH]; intros rest st w H.
  - simpl. rewrite Nat.add_0_r. now destruct st, w.
  - simpl in H. apply andb_true_iff in H as [Hl H].
    simpl app. cbn [filter].
    destruct (decodes_to silent_reasoning line) eqn:Hsilent.
    + rewrite reasoning_loop_silent by assumption.
      rewrite IH by assumption. simpl.
      f_equal; [f_equal|f_equal; lia].
      destruct (filter (decodes_to silent_reasoning) mid); simpl;
        f_equal; f_equal; lia.
    + rewrite orb_false_r in Hl.
      rewrite reasoning_loop_skipped by assumption. now apply IH.
Qed.

(** X6: on a stream whose answer deltas all carry the key
    [reasoning_content] with an empty value ([None] or the empty string)
    and no [finish_reason], the reasoning stage does not close early,
    whatever those deltas carry under [content]: it reads every one of
    them (reading the clock once for each), appends and prints nothing
    for them, and stops only at the [[DONE]] line, without a call of
    [close]. *)
Theorem reasoning_key_blocks_early_close (prompt : string)
    (ch : option ConversationHistory) (w : world) (r : response)
    (pre mid rest : list string) (line : string) (es : list StreamEvent) :
  requests_post (sent w) (deepseek_request prompt ch) = Ok r ->
  status_code r = 200 ->
  iter_lines r = (pre ++ mid ++ line :: rest)%list ->
  events_of pre = Some es ->
  quiet false es = true ->
  forallb (fun l => skipped l || decodes_to silent_reasoning l) mid = true ->
  parse_line line = Some StreamEnd ->
  get_deepseek_reasoning_stream prompt ch w
  = (Ok (StageEnd (Some (reasoning_text es)) Done (Connection rest false false)),
     World (stdout w ++ [Text (reasoning_banner ++ newline)] ++ reasoning_output es
              ++ [Text (newline ++ newline)])
           (ticks w + reasoning_reads es
            + List.length (filter (decodes_to silent_reasoning) mid))
           (sent w ++ [deepseek_request prompt ch])).
Proof.
  intros Hpost Hstatus Hlines Hpre Hq Hmid Hline.
  rewrite reasoning_stage_ok with (r := r) by assumption.
  rewrite Hlines, reasoning_loop_quiet with (es := es) by assumption.
  rewrite reasoning_loop_silent_run by assumption.
  rewrite reasoning_loop_end by assumption.
  unfold ended, begun; simpl. now rewrite <- !app_assoc.
Qed.

(** ** What a stage returns *)

(** X8: a stage returns [None] exactly when the status of its response
    is not 200; with the status 200 it returns a text, were it empty. *)
Theorem stage_none_iff_bad_status (prompt rtext : string)
    (ch : option ConversationHistory) (w w' : world) (r : response)
    (e : stage_end) :
  (requests_post (sent w) (deepseek_request prompt ch) = Ok r ->
   get_deepseek_reasoning_stream prompt ch w = (Ok e, w') ->
   (returned e = None <-> status_code r <> 200))
  /\ (requests_post (sent w) (openai_request prompt rtext ch) = Ok r ->
      get_openai_answer_stream prompt rtext ch w = (Ok e, w') ->
      (returned e = None <-> status_code r <> 200)).
Proof.
  split; intros Hpost H; destruct (Z.eq_dec (status_code r) 200) as [Hs|Hs].
  - rewrite reasoning_stage_ok with (r := r) in H by assumption.
    destruct (reasoning_loop _ _ _) as [[[[st rest] how]|ex] w1]; [|discriminate].
    injection H as <- <-. simpl. split; [discriminate|congruence].
  - rewrite reasoning_stage_bad with (r := r) in H by assumption.
    injection H as <- <-. simpl. split; auto.
  - rewrite answer_stage_ok with (r := r) in H by assumption.
    destruct (answer_loop _ _ _) as [[[[ans rest] how]|ex] w1]; [|discriminate].
    injection H as <- <-. simpl. split; [discriminate|congruence].
  - rewrite answer_stage_bad with (r := r) in H by assumption.
    injection H as <- <-. simpl. split; auto.
Qed.

(** ** The requests that are posted *)

Lemma posts_nothing_bind {A B} (m : M world A) (k : A -> M world B) :
  posts_nothing m -> (forall a, posts_nothing (k a)) -> posts_nothing (bind m k).
Proof.
  intros Hm Hk w. unfold bind. specialize (Hm w).
  destruct (m w) as [[a|e] w1]; simpl in *; [|exact Hm].
  now rewrite Hk.
Qed.

Lemma posts_nothing_ret {A} (a : A) : posts_nothing (ret (S := world) a).
Proof. intros w; reflexivity. Qed.

Lemma posts_nothing_lift {A} (o : outcome A) : posts_nothing (lift (S := world) o).
Proof. intros w; reflexivity. Qed.

Lemma posts_nothing_write (x : written) : posts_nothing (write x).
Proof. intros w; reflexivity. Qed.

Lemma posts_nothing_print_end (j : json) : posts_nothing (print_end j).
Proof. destruct j; apply posts_nothing_write. Qed.

Lemma posts_nothing_time : posts_nothing time_time.
Proof. intros w; reflexivity. Qed.

Ltac posts_nothing_step :=
  first
    [ apply posts_nothing_ret
    | apply posts_nothing_lift
    | apply posts_nothing_write
    | apply posts_nothing_print_end
    | apply posts_nothing_time
    | apply posts_nothing_bind; [|intros ?]
    | match goal with
      | |- posts_nothing (if ?b then _ else _) => destruct b
      end ].

Lemma reasoning_chunk_sent (chunk : json) (st : reasoning_locals) (w : world) :
  sent (snd (reasoning_chunk chunk st w)) = sent w.
Proof.
  revert w. change (posts_nothing (reasoning_chunk chunk st)).
  unfold reasoning_chunk. repeat posts_nothing_step.
Qed.

Lemma answer_chunk_sent (chunk : json) (acc : string) (w : world) :
  sent (snd (answer_chunk chunk acc w)) = sent w.
Proof.
  revert w. change (posts_nothing (answer_chunk chunk acc)).
  unfold answer_chunk. repeat posts_nothing_step.
Qed.

Lemma reasoning_loop_sent (lines : list string) :
  forall (st : reasoning_locals) (w : world),
    sent (snd (reasoning_loop lines st w)) = sent w.
Proof.
  induction lines as [|line lines IH]; intros st w; [reflexivity|].
  cbn [reasoning_loop].
  destruct (String.eqb line ""); [apply IH|].
  destruct (startswith "data: " line); [|apply IH].
  destruct (String.eqb (drop 6 line) "[DONE]"); [reflexivity|].
  destruct (json_loads (drop 6 line)) as [chunk|msg|]; [| |reflexivity].
  - unfold bind.
    assert (Hc := reasoning_chunk_sent chunk st w).
    destruct (reasoning_chunk chunk st w) as [[[[|] s1]|ex] w1]; simpl in Hc.
    + now rewrite IH.
    + exact Hc.
    + exact Hc.
  - unfold bind, print, write. simpl. now rewrite IH.
Qed.

Lemma answer_loop_sent (lines : list string) :
  forall (acc : string) (w : world),
    sent (snd (answer_loop lines acc w)) = sent w.
Proof.
  induction lines as [|line lines IH]; intros acc w; [reflexivity|].
  cbn [answer_loop].
  destruct (String.eqb line ""); [apply IH|].
  destruct (startswith "data: " line); [|apply IH].
  destruct (String.eqb (drop 6 line) "[DONE]"); [reflexivity|].
  destruct (json_loads (drop 6 line)) as [chunk|msg|]; [| |reflexivity].
  - unfold bind.
    assert (Hc := answer_chunk_sent chunk acc w).
    destruct (answer_chunk chunk acc w) as [[a1|ex] w1]; simpl in Hc.
    + now rewrite IH.
    + exact Hc.
  - unfold bind, print, write. simpl. now rewrite IH.
Qed.

Lemma reasoning_stage_sent (prompt : string) (ch : option ConversationHistory)
    (w : world) :
  sent (snd (get_deepseek_reasoning_stream prompt ch w))
  = (sent w ++ [deepseek_request prompt ch])%list.
Proof.
  unfold get_deepseek_reasoning_stream, bind, print, write, post.
  cbn [stdout ticks sent].
  destruct (requests_post (sent w) (deepseek_request prompt ch)) as [r|ex];
    [|reflexivity].
  destruct (negb (status_code r =? 200)); [reflexivity|].
  match goal with
  | |- context [reasoning_loop ?l ?s ?w0] =>
      assert (Hl := reasoning_loop_sent l s w0);
      destruct (reasoning_loop l s w0) as [[[[st rest] how]|ex] w1]
  end; simpl in *; exact Hl.
Qed.

Lemma answer_stage_sent (prompt rtext : string) (ch : option ConversationHistory)
    (w : world) :
  sent (snd (get_openai_answer_stream prompt rtext ch w))
  = (sent w ++ [openai_request prompt rtext ch])%list.
Proof.
  unfold get_openai_answer_stream, bind, print, write, post.
  cbn [stdout ticks sent].
  destruct (requests_post (sent w) (openai_request prompt rtext ch)) as [r|ex];
    [|reflexivity].
  destruct (negb (status_code r =? 200)); [reflexivity|].
  match goal with
  | |- context [answer_loop ?l ?s ?w0] =>
      assert (Hl := answer_loop_sent l s w0);
      destruct (answer_loop l s w0) as [[[[ans rest] how]|ex] w1]
  end; simpl in *; exact Hl.
Qed.

(** X9: whatever the network answers and however the round ends (a
    result or an exception), a round posts one request to the reasoning
    endpoint and at most one, after it, to the answering endpoint.  The
    second request is posted only when the reasoning stage returned a
    text; it is built from that text and from the history as it was when
    the round began. *)
Theorem round_posts_at_most_two (user_prompt : string)
    (self : ConversationHistory) (w : world) :
  let after := snd (snd (process_question user_prompt (self, w))) in
  let first := deepseek_request user_prompt (Some self) in
  sent after = (sent w ++ [first])%list
  \/ exists e w2 rtext,
       get_deepseek_reasoning_stream user_prompt (Some self) (asked w user_prompt)
       = (Ok e, w2)
       /\ returned e = Some rtext
       /\ sent after
          = (sent w ++ [first; openai_request user_prompt rtext (Some self)])%list.
Proof.
  intros after first. subst after first.
  cbv beta iota delta [process_question bind in_world this ret add_interaction
                       time_time print write].
  assert (H1 := reasoning_stage_sent user_prompt (Some self) (asked w user_prompt)).
  unfold asked in *.
  destruct (get_deepseek_reasoning_stream user_prompt (Some self) _)
    as [[e1|ex] w2] eqn:Hrun; cbn [snd] in H1; [|left; exact H1].
  destruct (returned e1) as [rtext|] eqn:Hr1; [|left; exact H1].
  right. exists e1, w2, rtext. repeat split; auto.
  assert (H2 := answer_stage_sent user_prompt rtext (Some self) w2).
  destruct (get_openai_answer_stream user_prompt rtext (Some self) w2)
    as [[e2|ex] w3]; cbn [snd] in H2.
  - destruct (returned e2); cbn [snd sent]; rewrite H2, H1, <- app_assoc;
      reflexivity.
  - cbn [snd]. rewrite H2, H1, <- app_assoc. reflexivity.
Qed.

(** ** More on ConversationHistory *)

Lemma add_interactions_negative (rounds : list (string * string * string))
    (c : Z) (w : world) :
  c < 0 ->
  add_interactions rounds (mkHistory [] c, w)
  = (Ok tt,
     (mkHistory [] c,
      World (stdout w) (ticks w + List.length rounds) (sent w))).
Proof.
  intros Hc. revert w; induction rounds as [|[[q r] a] more IH]; intros w.
  - simpl. unfold ret. rewrite Nat.add_0_r. now destruct w.
  - simpl. unfold bind, add_interaction, time_time, append_turn.
    cbn [history max_history app List.length].
    destruct (Z.gtb_spec (Z.of_nat 1) c) as [_|Hle]; [|lia].
    unfold py_slice_from. cbn [List.length].
    destruct (Z.ltb_spec (- c) 0) as [Hneg|_]; [lia|].
    rewrite Z.min_r by lia. simpl skipn.
    rewrite IH. cbn [ticks stdout sent]. do 3 f_equal. lia.
Qed.

(** X10: with a negative [max_history] a history that is created empty
    stays empty: every commit is discarded at once (the slice
    [self.history[-self.max_history:]] then starts beyond the one Turn
    that was appended). *)
Theorem negative_capacity_keeps_nothing (rounds : list (string * string * string))
    (c : Z) (w : world) :
  c < 0 ->
  add_interactions rounds (new_history c, w)
  = (Ok tt,
     (new_history c,
      World (stdout w) (ticks w + List.length rounds) (sent w))).
Proof. intros Hc. unfold new_history. now apply add_interactions_negative. Qed.

Lemma startswith_app (p s : string) : startswith p (p ++ s) = true.
Proof.
  induction p as [|c p IH]; simpl; [reflexivity|].
  now rewrite Ascii.eqb_refl, IH.
Qed.

Lemma str_contains_here (p s : string) : str_contains p (p ++ s) = true.
Proof.
  destruct (p ++ s) eqn:E; simpl; rewrite <- ?E, startswith_app; reflexivity.
Qed.

Lemma str_contains_skip (p a s : string) :
  str_contains p s = true -> str_contains p (a ++ s) = true.
Proof.
  intros H. induction a as [|c a IH]; simpl; [exact H|].
  rewrite IH. apply orb_true_r.
Qed.

Lemma alternating_length (pairs : list (string * string)) :
  List.length (alternating pairs) = (2 * List.length pairs)%nat.
Proof.
  induction pairs as [|qa pairs IH]; [reflexivity|].
  change (List.length (alternating (qa :: pairs)))
    with (S (S (List.length (alternating pairs)))).
  rewrite IH. simpl. lia.
Qed.

(** X11: the context for the answering endpoint is the system message,
    then the context for the reasoning endpoint (the stored questions and
    answers, oldest first), then one user message that holds the current
    question and the current reasoning text; it has two messages more
    than twice the number of stored Turns. *)
Theorem get_conversation_for_openai_shape (self : ConversationHistory)
    (current_query current_reasoning : string) :
  exists final : message,
    get_conversation_for_openai self current_query current_reasoning
    = (Message "system" system_prompt_with_history
         :: get_conversation_for_deepseek self ++ [final])%list
    /\ role final = "user"
    /\ str_contains current_query (content final) = true
    /\ str_contains current_reasoning (content final) = true
    /\ List.length (get_conversation_for_openai self current_query current_reasoning)
       = (2 * List.length (history self) + 2)%nat.
Proof.
  unfold get_conversation_for_openai, get_conversation_for_deepseek.
  rewrite !append_history_flat. eexists. split; [reflexivity|].
  cbn [role content]. repeat split.
  - repeat first [apply str_contains_here | apply str_contains_skip].
  - repeat first [apply str_contains_here | apply str_contains_skip].
  - simpl. rewrite length_app, alternating_length, length_map. simpl. lia.
Qed.

Lemma alternating_app (xs ys : list (string * string)) :
  alternating (xs ++ ys) = (alternating xs ++ alternating ys)%list.
Proof. unfold alternating. now rewrite flat_map_app. Qed.

Lemma lastn_snoc_split {A} (n : nat) (l : list A) (x : A) :
  (1 <= n)%nat -> exists front, lastn n (l ++ [x]) = (front ++ [x])%list.
Proof.
  intros Hn. unfold lastn. rewrite length_app, skipn_app. simpl List.length.
  replace (List.length l + 1 - n - List.length l)%nat with 0%nat by lia.
  simpl. eauto.
Qed.

(** X12: a committed Turn is the last question and answer of the next
    reasoning context.  With a capacity of at least one, the context
    after a commit ends with [user: question; assistant: answer] of the
    new Turn and has at most [2 * max_history] messages; while the
    history is not full it is the old context followed by that pair. *)
Theorem commit_extends_context (t : Turn) (self : ConversationHistory) :
  1 <= max_history self ->
  (exists front,
      get_conversation_for_deepseek (append_turn t self)
      = (front ++ [Message "user" (user_query t);
                   Message "assistant" (ai_response t)])%list)
  /\ Z.of_nat (List.length (get_conversation_for_deepseek (append_turn t self)))
     <= 2 * max_history self
  /\ (Z.of_nat (List.length (history self)) < max_history self ->
      get_conversation_for_deepseek (append_turn t self)
      = (get_conversation_for_deepseek self
           ++ [Message "user" (user_query t);
               Message "assistant" (ai_response t)])%list).
Proof.
  intros Hcap. rewrite append_turn_recent by assumption.
  unfold get_conversation_for_deepseek. rewrite !append_history_flat.
  cbn [history app]. repeat split.
  - destruct (@lastn_snoc_split _ (Z.to_nat (max_history self)) (history self) t)
      as [front Hfront]; [lia|].
    rewrite Hfront, map_app, alternating_app. simpl. eauto.
  - rewrite alternating_length, length_map, lastn_length. lia.
  - intros Hroom. rewrite lastn_all by (rewrite length_app; simpl; lia).
    now rewrite map_app, alternating_app.
Qed.

(** ** get_summary *)

Lemma str_length_app (s t : string) :
  String.length (s ++ t) = (String.length s + String.length t)%nat.
Proof. induction s as [|c s IH]; simpl; auto. Qed.

Lemma take_length (n : nat) (s : string) :
  String.length (take n s) = Nat.min n (String.length s).
Proof.
  revert s; induction n as [|n IH]; intros [|c s]; simpl; auto.
Qed.

Lemma take_all (n : nat) (s : string) :
  (String.length s <= n)%nat -> take n s = s.
Proof.
  revert s; induction n as [|n IH]; intros [|c s] H; simpl in *; try reflexivity.
  - lia.
  - rewrite IH by lia. reflexivity.
Qed.

Lemma take_prefix (n : nat) (s : string) : startswith (take n s) s = true.
Proof.
  revert s; induction n as [|n IH]; intros [|c s]; simpl; try reflexivity.
  now rewrite Ascii.eqb_refl, IH.
Qed.

(** X13: how the summary shows a question or an answer.  A text of at
    most 50 characters is shown as it is; a longer one is cut to its
    first 50 characters, followed by three dots; what is shown never
    has more than 53 characters. *)
Theorem shown_cuts_at_fifty (s : string) :
  ((String.length s <= 50)%nat -> shown s = s)
  /\ ((50 < String.length s)%nat ->
      shown s = take 50 s ++ "..."
      /\ startswith (take 50 s) s = true
      /\ String.length (shown s) = 53%nat)
  /\ (String.length (shown s) <= 53)%nat.
Proof.
  unfold shown.
  destruct (Nat.ltb_spec 50 (String.length s)) as [Hlong|Hshort].
  - repeat split; try lia.
    + apply take_prefix.
    + rewrite str_length_app, take_length. simpl String.length. lia.
    + rewrite str_length_app, take_length. simpl String.length. lia.
  - rewrite str_app_nil_r, take_all by lia. repeat split; try lia.
Qed.

Lemma summary_fold (h : list Turn) :
  forall (i : Z) (acc : string),
    fold_left
      (fun '(i, summary) interaction =>
         (i + 1, summary ++ summary_entry i interaction))
      h (i, acc)
    = (i + Z.of_nat (List.length h), acc ++ joined (numbered i h)).
Proof.
  induction h as [|t h IH]; intros i acc.
  - simpl. now rewrite Z.add_0_r, str_app_nil_r.
  - cbn [fold_left]. rewrite IH. cbn [numbered joined fold_right List.length].
    rewrite str_app_assoc. f_equal. lia.
Qed.

(** X14: the summary of an empty history is the fixed text
    [No conversation history yet.]; the summary of any other history is
    the header with the number of interactions, followed by one entry
    per interaction, in the order of the history and numbered from 1. *)
Theorem get_summary_entries (self : ConversationHistory) :
  get_summary self
  = match history self with
    | [] => no_history_text
    | _ => summary_header (List.length (history self))
           ++ joined (numbered 1 (history self))
    end.
Proof.
  unfold get_summary. destruct (history self) as [|t h]; [reflexivity|].
  now rewrite summary_fold.
Qed.

Lemma startswith_extend (p s t : string) :
  startswith p s = true -> startswith p (s ++ t) = true.
Proof.
  revert s; induction p as [|a p IH]; intros [|b s] H; simpl in *;
    try reflexivity; try discriminate.
  apply andb_true_iff in H as [Hab H]. now rewrite Hab, IH.
Qed.

Lemma str_contains_extend (p s t : string) :
  str_contains p s = true -> str_contains p (s ++ t) = true.
Proof.
  induction s as [|c s IH]; intros H.
  - simpl in H. rewrite orb_false_r in H.
    destruct p; [|discriminate]. now destruct t.
  - simpl in H. apply orb_true_iff in H as [H|H].
    + change (str_contains p (String c s ++ t))
        with (startswith p (String c s ++ t) || str_contains p (s ++ t)).
      now rewrite startswith_extend.
    + change (str_contains p (String c s ++ t))
        with (startswith p (String c s ++ t) || str_contains p (s ++ t)).
      rewrite IH by assumption. apply orb_true_r.
Qed.

Lemma str_contains_joined (p x : string) (xs : list string) :
  In x xs -> str_contains p x = true -> str_contains p (joined xs) = true.
Proof.
  intros Hin Hp. induction xs as [|y xs IH]; [contradiction|].
  cbn [joined fold_right]. destruct Hin as [->|Hin].
  - now apply str_contains_extend.
  - apply str_contains_skip. now apply IH.
Qed.

Lemma numbered_in (t : Turn) (h : list Turn) :
  In t h -> forall i, exists j, i <= j /\ In (summary_entry j t) (numbered i h).
Proof.
  induction h as [|u h IH]; intros Hin i; [contradiction|].
  destruct Hin as [->|Hin].
  - exists i. split; [lia|]. now left.
  - destruct (IH Hin (i + 1)) as (j & Hj & Hin'). exists j. split; [lia|].
    now right.
Qed.

(** X15: every stored Turn is in the summary: the summary contains the
    question and the answer of each Turn of the history, as they are
    shown (cut at 50 characters), and the local time of its time stamp. *)
Theorem summary_shows_every_turn (self : ConversationHistory) (t : Turn) :
  In t (history self) ->
  str_contains (shown (user_query t)) (get_summary self) = true
  /\ str_contains (shown (ai_response t)) (get_summary self) = true
  /\ str_contains (local_time_text (turn_timestamp t)) (get_summary self) = true.
Proof.
  intros Hin. unfold get_summary.
  destruct (history self) as [|u h] eqn:Hh; [contradiction|].
  rewrite summary_fold. rewrite <- Hh in *. clear Hh u h.
  destruct (numbered_in t (history self) Hin 1) as (j & _ & Hj).
  repeat split; apply str_contains_skip;
    apply (str_contains_joined _ _ _ Hj); unfold summary_entry;
    repeat first [apply str_contains_here | apply str_contains_skip].
Qed.

(** ** interactive_mode *)

Lemma process_question_outcomes (user_prompt : string)
    (self : ConversationHistory) (w : world) :
  let run := process_question user_prompt (self, w) in
  (fst run = Ok false /\ fst (snd run) = self)
  \/ (fst run = Ok true /\ exists t, fst (snd run) = append_turn t self)
  \/ (exists e, fst run = Raise e /\ fst (snd run) = self).
Proof.
  intros run. subst run.
  cbv beta iota delta [process_question bind in_world this ret add_interaction
                       time_time print write].
  destruct (get_deepseek_reasoning_stream user_prompt (Some self) _)
    as [[e1|ex] w2]; [|right; right; exists ex; split; reflexivity].
  destruct (returned e1) as [rtext|]; [|left; split; reflexivity].
  destruct (get_openai_answer_stream user_prompt rtext (Some self) w2)
    as [[e2|ex] w3]; [|right; right; exists ex; split; reflexivity].
  destruct (returned e2) as [answer|]; [|left; split; reflexivity].
  right; left. split; [reflexivity|]. eexists. reflexivity.
Qed.

Lemma interactive_step_bounded (key : keyboard) (s : session) :
  max_history (conversation_history s) = CONVERSATION_MAX_HISTORY ->
  (List.length (history (conversation_history s)) <= 100)%nat ->
  let s' := snd (interactive_step key s) in
  max_history (conversation_history s') = CONVERSATION_MAX_HISTORY
  /\ (List.length (history (conversation_history s')) <= 100)%nat.
Proof.
  intros Hmax Hlen. unfold interactive_step.
  destruct key as [u| |]; cbn [snd conversation_history]; auto.
  destruct (String.eqb (lower u) "#exit"); [cbn; auto|].
  destruct (String.eqb (lower u) "#history"); [cbn; auto|].
  destruct (String.eqb (lower u) "#clear"); [cbn; split; [reflexivity|lia]|].
  destruct (blank u); [cbn; auto|].
  match goal with
  | |- context [process_question ?p (?h, ?w0)] =>
      destruct (process_question_outcomes p h w0) as [[_ H]|[[_ [t H]]|[e [_ H]]]];
      destruct (process_question p (h, w0)) as [[b|e'] [h' w']]
  end; cbn [fst snd conversation_history] in *; subst h'; auto.
  all: rewrite append_turn_recent
         by (rewrite Hmax; unfold CONVERSATION_MAX_HISTORY; lia).
  all: cbn [max_history history]; split; [assumption|].
  all: rewrite lastn_length, Hmax; unfold CONVERSATION_MAX_HISTORY; lia.
Qed.

Lemma interactive_loop_bounded (keys : list keyboard) :
  forall s : session,
    max_history (conversation_history s) = CONVERSATION_MAX_HISTORY ->
    (List.length (history (conversation_history s)) <= 100)%nat ->
    let s' := snd (interactive_loop keys s) in
    max_history (conversation_history s') = CONVERSATION_MAX_HISTORY
    /\ (List.length (history (conversation_history s')) <= 100)%nat.
Proof.
  induction keys as [|key keys IH]; intros s Hmax Hlen; [cbn; auto|].
  cbn [interactive_loop].
  destruct (interactive_step_bounded key s Hmax Hlen) as [Hmax' Hlen'].
  destruct (interactive_step key s) as [[|] s1]; cbn [snd] in *.
  - now apply IH.
  - auto.
Qed.

(** X16: throughout a session the history is bounded.  Whatever is
    typed, whatever the endpoints answer and whatever fails, the history
    that [interactive_mode] holds has the capacity 100 and at most 100
    Turns. *)
Theorem session_history_bounded (keys : list keyboard) (w : world) :
  let s := snd (interactive_mode keys w) in
  max_history (conversation_history s) = 100
  /\ (List.length (history (conversation_history s)) <= 100)%nat.
Proof.
  unfold interactive_mode.
  apply interactive_loop_bounded; cbn; [reflexivity|lia].
Qed.

(** X17: the three commands, in any letter case, and blank lines never
    reach the endpoints: such an input posts no request and does not
    read the clock, and it leaves the history as it is, except that
    [#clear] replaces it by an empty history of capacity 100. *)
Theorem local_inputs_post_nothing (user_input : string) (s : session) :
  handled_locally user_input = true ->
  let s' := snd (interactive_step (Typed user_input) s) in
  sent (terminal s') = sent (terminal s)
  /\ ticks (terminal s') = ticks (terminal s)
  /\ conversation_history s'
     = if String.eqb (lower user_input) "#clear"
       then new_history 100
       else conversation_history s.
Proof.
  unfold handled_locally, interactive_step; intros H.
  destruct (String.eqb_spec (lower user_input) "#exit") as [E|_].
  { rewrite E. cbn. auto. }
  destruct (String.eqb_spec (lower user_input) "#history") as [E|_].
  { rewrite E. cbn. auto. }
  destruct (String.eqb (lower user_input) "#clear"); [cbn; auto|].
  simpl in H. rewrite H. cbn. auto.
Qed.

(** X18: a round that raises one of the exceptions of its own code (a
    [TypeError], [KeyError] or [IndexError] on a payload, an error out
    of [json.loads] or out of [requests.post], all of them of the class
    [Exception]) does not end the session and does not change the
    history: the exception is reported on standard output and the loop
    goes on with the next input.  A [KeyboardInterrupt] is not among
    them: the model has it at a call of [input] only. *)
Theorem failed_round_is_absorbed (user_input : string) (s : session) (e : exn) :
  handled_locally user_input = false ->
  fst (process_question user_input (conversation_history s, prompted (terminal s)))
  = Raise e ->
  interactive_step (Typed user_input) s
  = (Next,
     Session (conversation_history s)
       (reported (str_of_exn e)
          (snd (snd (process_question user_input
                       (conversation_history s, prompted (terminal s))))))
       (os_system s)).
Proof.
  unfold handled_locally, interactive_step; intros H Hrun.
  apply orb_false_iff in H as [H Hblank].
  apply orb_false_iff in H as [H Hclear].
  apply orb_false_iff in H as [Hexit Hhistory].
  rewrite Hexit, Hhistory, Hclear, Hblank.
  fold (prompted (terminal s)).
  destruct (process_question_outcomes user_input (conversation_history s)
              (prompted (terminal s))) as [[H1 _]|[[H1 _]|[e' [H1 H2]]]];
    try congruence.
  destruct (process_question user_input (conversation_history s, prompted (terminal s)))
    as [[b|e''] [h' w']]; cbn [fst snd] in *; [discriminate|].
  subst h'. injection Hrun as ->. reflexivity.
Qed.

(** X19: after [#clear] the summary is the one of an empty history,
    whatever the history held before: the inputs [#clear] and [#history]
    (in any letter case) leave an empty history of capacity 100, print
    [No conversation history yet.] and give one command to [os.system]. *)
Theorem clear_then_history (u1 u2 : string) (s : session) :
  lower u1 = "#clear" ->
  lower u2 = "#history" ->
  interactive_loop [Typed u1; Typed u2] s
  = (Next,
     Session (new_history 100)
       (say no_history_text (prompted (prompted (terminal s))))
       (os_system s ++ [clear_command])).
Proof.
  intros H1 H2. cbn [interactive_loop]. unfold interactive_step.
  rewrite H1, H2. reflexivity.
Qed.

Lemma interactive_loop_end_of_file (n : nat) :
  forall s : session,
  exists out,
    interactive_loop (repeat EndOfFile n) s
    = (Next,
       Session (conversation_history s)
         (World (stdout (terminal s) ++ out) (ticks (terminal s)) (sent (terminal s)))
         (os_system s))
    /\ List.length out = (3 * n)%nat.
Proof.
  induction n as [|n IH]; intros s.
  - exists []. simpl. rewrite app_nil_r. split; [|reflexivity].
    now destruct s as [h [o t q] c].
  - cbn [repeat interactive_loop]. unfold interactive_step.
    match goal with
    | |- context [interactive_loop _ ?s1] => destruct (IH s1) as (out & Hrun & Hlen)
    end.
    rewrite Hrun. cbn [conversation_history terminal os_system say print write snd
                       stdout ticks sent].
    rewrite <- !app_assoc. eexists. split; [reflexivity|].
    rewrite !length_app. simpl. lia.
Qed.

(** X20: the end of the input does not end the session.  Each call of
    [input] that fails with [EOFError] is caught and reported (the
    prompt and two lines are printed) and the loop calls [input] again:
    after any number of such calls the loop is still running, with the
    history, the clock and the requests as they were. *)
Theorem end_of_input_never_ends (n : nat) (s : session) :
  exists out,
    interactive_loop (repeat EndOfFile n) s
    = (Next,
       Session (conversation_history s)
         (World (stdout (terminal s) ++ out) (ticks (terminal s)) (sent (terminal s)))
         (os_system s))
    /\ List.length out = (3 * n)%nat.
Proof. apply interactive_loop_end_of_file. Qed.

(** X21: with a capacity of at least one, one or more commits restore
    the bound from any history, even one that is longer than the
    capacity: afterwards the history is the last [max_history] Turns of
    the old history followed by the new Turns, in their order, and so
    has at most [max_history] Turns. *)
Theorem commits_restore_the_bound (rounds : list (string * string * string))
    (self : ConversationHistory) (w : world) :
  1 <= max_history self ->
  rounds <> [] ->
  add_interactions rounds (self, w)
  = (Ok tt,
     (mkHistory (lastn (Z.to_nat (max_history self))
                       (history self ++ turns_from (ticks w) rounds))
                (max_history self),
      World (stdout w) (ticks w + List.length rounds) (sent w)))
  /\ Z.of_nat
       (List.length
          (lastn (Z.to_nat (max_history self))
             (history self ++ turns_from (ticks w) rounds)))
     <= max_history self.
Proof.
  intros Hcap Hne. split.
  - apply add_interactions_recent; auto.
  - rewrite lastn_length. lia.
Qed.

(** X22: the answer loop looks at [delta.content] alone.  For a chunk of
    the documented shape it appends the text under [content] (nothing
    when the delta or the key is missing), prints it when it is not
    empty, and goes on with the next line, whatever else the chunk
    carries: a [finish_reason], a [reasoning_content], other keys. *)
Theorem answer_loop_takes_content (line t acc : string) (rest : list string)
    (w : world) (chunk : json) :
  decoded line = Some chunk ->
  delta_content chunk = Some t ->
  answer_loop (line :: rest) acc w
  = answer_loop rest (acc ++ t)
      (World (stdout w ++ printed [t]) (ticks w) (sent w)).
Proof.
  intros Hd Hc. apply decoded_some in Hd as (Hs & Hdone & Hl).
  rewrite answer_loop_loaded with (chunk := chunk) by assumption. unfold bind.
  now rewrite answer_chunk_content with (t := t) by assumption.
Qed.

Lemma process_question_commits (user_prompt : string)
    (self : ConversationHistory) (w : world) :
  fst (process_question user_prompt (self, w)) = Ok true ->
  exists rtext answer now,
    fst (snd (process_question user_prompt (self, w)))
    = append_turn (mkTurn user_prompt rtext answer now) self.
Proof.
  cbv beta iota delta [process_question bind in_world this ret add_interaction
                       time_time print write].
  destruct (get_deepseek_reasoning_stream user_prompt (Some self) _)
    as [[e1|ex] w2]; [|discriminate].
  destruct (returned e1) as [rtext|]; [|discriminate].
  destruct (get_openai_answer_stream user_prompt rtext (Some self) w2)
    as [[e2|ex] w3]; [|discriminate].
  destruct (returned e2) as [answer|]; [|discriminate].
  intros _. do 3 eexists. reflexivity.
Qed.

(** X23: a question that was answered is in the summary.  With a
    capacity of at least one, after a round that returns [True] the
    summary of the history contains the question of that round, as it is
    shown (cut at 50 characters). *)
Theorem answered_question_is_in_summary (user_prompt : string)
    (self : ConversationHistory) (w : world) :
  1 <= max_history self ->
  fst (process_question user_prompt (self, w)) = Ok true ->
  str_contains (shown user_prompt)
    (get_summary (fst (snd (process_question user_prompt (self, w))))) = true.
Proof.
  intros Hcap Hrun.
  destruct (process_question_commits user_prompt self w Hrun)
    as (rtext & answer & now & ->).
  rewrite append_turn_recent by assumption.
  destruct (@lastn_snoc_split _ (Z.to_nat (max_history self)) (history self)
              (mkTurn user_prompt rtext answer now)) as [front Hfront]; [lia|].
  unfold get_summary. cbn [history]. rewrite Hfront.
  destruct (front ++ [mkTurn user_prompt rtext answer now])%list as [|u h] eqn:Hh.
  { destruct front; discriminate. }
  rewrite summary_fold, <- Hh. clear Hh.
  assert (Hin : In (mkTurn user_prompt rtext answer now)
                   (front ++ [mkTurn user_prompt rtext answer now]))
    by (apply in_or_app; right; now left).
  destruct (numbered_in _ _ Hin 1) as (j & _ & Hj).
  apply str_contains_skip. apply (str_contains_joined _ _ _ Hj).
  unfold summary_entry. cbn [user_query].
  repeat first [apply str_contains_here | apply str_contains_skip].
Qed.

Lemma process_question_sent (user_prompt : string)
    (self : ConversationHistory) (w : world) :
  exists posted,
    sent (snd (snd (process_question user_prompt (self, w))))
    = (sent w ++ posted)%list
    /\ forallb endpoint_request posted = true.
Proof.
  cbv beta iota delta [process_question bind in_world this ret add_interaction
                       time_time print write].
  match goal with
  | |- context [get_deepseek_reasoning_stream user_prompt (Some self) ?w1] =>
      assert (H1 := reasoning_stage_sent user_prompt (Some self) w1);
      destruct (get_deepseek_reasoning_stream user_prompt (Some self) w1)
        as [[e1|ex] w2]
  end; cbn [snd sent] in H1.
  2: { exists [deepseek_request user_prompt (Some self)]. split; [exact H1|reflexivity]. }
  destruct (returned e1) as [rtext|].
  2: { exists [deepseek_request user_prompt (Some self)]. split; [exact H1|reflexivity]. }
  assert (H2 := answer_stage_sent user_prompt rtext (Some self) w2).
  exists [deepseek_request user_prompt (Some self);
          openai_request user_prompt rtext (Some self)].
  split; [|reflexivity].
  destruct (get_openai_answer_stream user_prompt rtext (Some self) w2)
    as [[e2|ex] w3]; cbn [snd] in H2.
  - destruct (returned e2); cbn [snd sent]; rewrite H2, H1, <- app_assoc;
      reflexivity.
  - cbn [snd]. rewrite H2, H1, <- app_assoc. reflexivity.
Qed.

Lemma interactive_step_sent (key : keyboard) (s : session) :
  exists posted,
    sent (terminal (snd (interactive_step key s)))
    = (sent (terminal s) ++ posted)%list
    /\ forallb endpoint_request posted = true.
Proof.
  unfold interactive_step.
  destruct key as [u| |];
    try (exists []; cbn [snd terminal say print write sent];
         now rewrite app_nil_r).
  destruct (String.eqb (lower u) "#exit");
    [exists []; cbn [snd terminal say print write sent]; now rewrite app_nil_r|].
  destruct (String.eqb (lower u) "#history");
    [exists []; cbn [snd terminal say print write sent]; now rewrite app_nil_r|].
  destruct (String.eqb (lower u) "#clear");
    [exists []; cbn [snd terminal say print write sent]; now rewrite app_nil_r|].
  destruct (blank u);
    [exists []; cbn [snd terminal say print write sent]; now rewrite app_nil_r|].
  match goal with
  | |- context [process_question ?p (?h, ?w0)] =>
      destruct (process_question_sent p h w0) as (posted & Hp & Hall);
      destruct (process_question p (h, w0)) as [[b|e'] [h' w']]
  end; cbn [fst snd terminal] in *; exists posted; split; auto.
Qed.

(** X24: a session posts to the two endpoints only.  Whatever is typed
    and whatever the network answers, the requests that a run of the
    loop adds to those posted before go to the reasoning endpoint with
    its model or to the answering endpoint with its model, and every
    one of them asks for a streamed response. *)
Theorem session_posts_to_endpoints_only (keys : list keyboard) (s : session) :
  exists posted,
    sent (terminal (snd (interactive_loop keys s)))
    = (sent (terminal s) ++ posted)%list
    /\ forallb endpoint_request posted = true.
Proof.
  revert s; induction keys as [|key keys IH]; intros s.
  - exists []. cbn. now rewrite app_nil_r.
  - cbn [interactive_loop].
    destruct (interactive_step_sent key s) as (p1 & H1 & A1).
    destruct (interactive_step key s) as [[|] s1]; cbn [snd] in *.
    + destruct (IH s1) as (p2 & H2 & A2).
      exists (p1 ++ p2)%list. rewrite H2, H1, <- app_assoc. split; [reflexivity|].
      now rewrite forallb_app, A1, A2.
    + exists p1. auto.
Qed.

(** A line on which [json.loads] raises something other than
    [JSONDecodeError] ends the answer loop with that exception: the
    handler does not catch it, nothing is printed for the line, and no
    later line is read. *)
Lemma answer_loop_loads_raised (line : string) (rest : list string)
    (acc : string) (w : world) :
  skipped line = false ->
  String.eqb (drop 6 line) "[DONE]" = false ->
  json_loads (drop 6 line) = LoadsRaised ->
  answer_loop (line :: rest) acc w = (Raise LoadsFailure, w).
Proof.
  intros Hs Hd Hl. apply skipped_false in Hs as [Hs1 Hs2].
  cbn [answer_loop]. now rewrite Hs1, Hs2, Hd, Hl.
Qed.

End Orchestrator.

(** * The properties on the sample streams *)

Lemma reasoning_stops_at_answer_delta_sample :
  get_deepseek_reasoning_stream sample_clock sample_loads
    (replying reasoning_then_answer) "q" None world0
  = (Ok (StageEnd (Some ("a" ++ "b")) Transition
           (Connection [""; done_line; ""] false true)),
     World (stdout world0 ++ [Text (reasoning_banner ++ newline)] ++ printed ["a"; "b"]
              ++ [Text (newline ++ newline)])
           (ticks world0 + 2)
           (sent world0 ++ [deepseek_request "q" (@None (ConversationHistory nat))])).
Proof.
  apply reasoning_stops_at_answer_delta
    with (r := reasoning_then_answer)
         (pre := [reasoning_line "a"; ""; reasoning_line "b"; ""])
         (line := content_line "x") (x := "x");
    reflexivity.
Defined.

Lemma empty_reasoning_delta_counts_sample :
  get_deepseek_reasoning_stream sample_clock sample_loads
    (replying empty_reasoning_then_answer) "q" None world0
  = (Ok (StageEnd (Some "") Transition (Connection [""; done_line; ""] false true)),
     World (stdout world0 ++ [Text (reasoning_banner ++ newline)]
              ++ [Text (newline ++ newline)])
           (ticks world0 + 2)
           (sent world0 ++ [deepseek_request "q" (@None (ConversationHistory nat))])).
Proof.
  exact (proj1 (@empty_reasoning_delta_counts nat sample_clock sample_loads
                  (replying empty_reasoning_then_answer) "q" None world0
                  empty_reasoning_then_answer
                  [reasoning_line ""; ""; reasoning_line ""; ""]
                  [""; done_line; ""] (content_line "x") "x" 1%nat
                  eq_refl eq_refl eq_refl eq_refl eq_refl)).
Defined.

Lemma empty_reasoning_is_a_result_sample :
  get_deepseek_reasoning_stream sample_clock sample_loads
    (replying empty_reasoning_then_done) "q" None world0
  = (Ok (StageEnd (Some "") Done (Connection [""] false false)),
     World (stdout world0 ++ [Text (reasoning_banner ++ newline)]
              ++ [Text (newline ++ newline)])
           (ticks world0 + 1)
           (sent world0 ++ [deepseek_request "q" (@None (ConversationHistory nat))])).
Proof.
  apply empty_reasoning_is_a_result
    with (r := empty_reasoning_then_done)
         (pre := [reasoning_line ""; ""]) (line := done_line);
    reflexivity.
Defined.

Lemma answer_delta_before_reasoning_ignored_sample :
  reasoning_loop sample_clock sample_loads
    ([""] ++ content_line "x" :: [reasoning_line "a"]) (reasoning_init nat) world0
  = reasoning_loop sample_clock sample_loads [reasoning_line "a"]
      (reasoning_init nat) world0.
Proof.
  apply answer_delta_before_reasoning_ignored with (x := "x"); reflexivity.
Defined.

Lemma answer_loop_passes_finish_signal_sample :
  answer_loop sample_loads (data_line finish_payload :: [content_line "y"]) "x" world0
  = answer_loop sample_loads [content_line "y"] ("x" ++ "")
      (World (stdout world0 ++ printed [""]) (ticks world0) (sent world0)).
Proof.
  apply answer_loop_passes_finish_signal; reflexivity.
Defined.

(** C6, as stated, fails: the answer stage reads past a FinishSignal.
    On a stream with an answer delta after the finish chunk it returns
    both texts, and on a stream that closes as the endpoints do it stops
    at the [[DONE]] line, not at the finish chunk before it. *)
Lemma answer_stage_reads_past_finish_signal :
  parse_line sample_loads (data_line finish_payload) = Some FinishSignal
  /\ fst (get_openai_answer_stream sample_loads (replying answer_past_finish)
            "q" "r" (@None (ConversationHistory nat)) world0)
     = Ok (StageEnd (Some "xy") Exhausted (Connection [] true false))
  /\ fst (get_openai_answer_stream sample_loads (replying answer_then_finish_then_done)
            "q" "r" (@None (ConversationHistory nat)) world0)
     = Ok (StageEnd (Some "x") Done (Connection [""] false false)).
Proof. repeat split; reflexivity. Qed.

Lemma finish_signal_returns_without_close_sample :
  fst (get_deepseek_reasoning_stream sample_clock sample_loads
         (replying reasoning_then_finish) "q" None world0)
  = Ok (StageEnd (Some "a") Finish (Connection [""; done_line; ""] false false)).
Proof. reflexivity. Qed.


(** C7, at a line that is not JSON-decodable because its bytes are not
    UTF-8: between two answer deltas [x] and [y] such a line is neither
    reported nor skipped.  [json.loads] raises [UnicodeDecodeError], the
    handler of [JSONDecodeError] does not catch it, and the answer stage
    ends with the exception: [x] was printed, [y] is never read, and no
    text is returned. *)
Theorem bad_bytes_abort_the_answer_stage :
  get_openai_answer_stream bytes_loads (replying answer_around_bad_bytes)
    "q" "r" (@None (ConversationHistory nat)) world0
  = (Raise LoadsFailure,
     World [Text (answer_banner ++ newline); Text "x"] 0
       [openai_request "q" "r" (@None (ConversationHistory nat))]).
Proof. reflexivity. Qed.


(** * The further properties on the sample streams *)

Lemma reasoning_stage_stops_at_first_end_sample :
  get_deepseek_reasoning_stream sample_clock sample_loads
    (replying reasoning_with_noise) "q" None world0
  = (Ok (StageEnd
           (Some (reasoning_text
                    [AnswerDelta "y"; ReasoningDelta "a"; Malformed "oops";
                     ReasoningDelta "b"]))
           Transition
           (Connection [""; done_line; ""] false (is_transition Transition))),
     World (stdout world0 ++ [Text (reasoning_banner ++ newline)]
              ++ reasoning_output sample_loads
                   [AnswerDelta "y"; ReasoningDelta "a"; Malformed "oops";
                    ReasoningDelta "b"]
              ++ [Text (newline ++ newline)])
           (ticks world0
            + reasoning_reads
                [AnswerDelta "y"; ReasoningDelta "a"; Malformed "oops";
                 ReasoningDelta "b"])
           (sent world0 ++ [deepseek_request "q" (@None (ConversationHistory nat))])).
Proof.
  apply reasoning_stage_stops_at_first_end
    with (r := reasoning_with_noise)
         (pre := [content_line "y"; ""; reasoning_line "a"; ""; data_line "oops"; "";
                  reasoning_line "b"; ""])
         (line := content_line "x") (e := AnswerDelta "x");
    reflexivity.
Defined.

Lemma reasoning_stage_runs_out_sample :
  get_deepseek_reasoning_stream sample_clock sample_loads
    (replying reasoning_cut_short) "q" None world0
  = (Ok (StageEnd (Some (reasoning_text [ReasoningDelta "a"; ReasoningDelta "b"]))
           Exhausted (Connection [] true false)),
     World (stdout world0 ++ [Text (reasoning_banner ++ newline)]
              ++ reasoning_output sample_loads [ReasoningDelta "a"; ReasoningDelta "b"]
              ++ [Text (newline ++ newline)])
           (ticks world0 + reasoning_reads [ReasoningDelta "a"; ReasoningDelta "b"])
           (sent world0 ++ [deepseek_request "q" (@None (ConversationHistory nat))])).
Proof.
  apply reasoning_stage_runs_out with (r := reasoning_cut_short); reflexivity.
Defined.

Lemma answer_stage_collects_deltas_sample :
  get_openai_answer_stream sample_loads (replying answer_around_malformed)
    "q" "r" (@None (ConversationHistory nat)) world0
  = (Ok (StageEnd
           (Some (answer_text [AnswerDelta "x"; Malformed "oops"; AnswerDelta "y"]))
           Done (Connection [""] false false)),
     World (stdout world0 ++ [Text (answer_banner ++ newline)]
              ++ answer_output sample_loads
                   [AnswerDelta "x"; Malformed "oops"; AnswerDelta "y"]
              ++ [Text (newline ++ newline)])
           (ticks world0)
           (sent world0 ++ [openai_request "q" "r" (@None (ConversationHistory nat))])).
Proof.
  apply (@answer_stage_collects_deltas nat sample_loads
           (replying answer_around_malformed) "q" "r" None world0
           answer_around_malformed
           [content_line "x"; ""; data_line "oops"; ""; content_line "y"; ""]
           [done_line; ""]
           [AnswerDelta "x"; Malformed "oops"; AnswerDelta "y"]);
    reflexivity.
Defined.

Lemma scalar_payload_raises_sample :
  reasoning_loop sample_clock wider_loads (data_line "null" :: [done_line])
    (reasoning_init nat) world0
  = (Raise TypeError, world0)
  /\ answer_loop wider_loads (data_line "null" :: [done_line]) "" world0
     = (Raise TypeError, world0).
Proof. apply scalar_payload_raises. reflexivity. Defined.

Lemma chunk_without_choices_passed_sample :
  reasoning_loop sample_clock wider_loads
    (data_line no_choices_payload :: [done_line]) (reasoning_init nat) world0
  = reasoning_loop sample_clock wider_loads [done_line] (reasoning_init nat) world0
  /\ answer_loop wider_loads (data_line no_choices_payload :: [done_line]) "x" world0
     = answer_loop wider_loads [done_line] "x" world0.
Proof. apply chunk_without_choices_passed. reflexivity. Defined.

Lemma reasoning_key_blocks_early_close_sample :
  get_deepseek_reasoning_stream sample_clock wider_loads
    (replying both_keys_stream) "q" None world0
  = (Ok (StageEnd (Some (reasoning_text [ReasoningDelta "a"])) Done
           (Connection [""] false false)),
     World (stdout world0 ++ [Text (reasoning_banner ++ newline)]
              ++ reasoning_output wider_loads [ReasoningDelta "a"]
              ++ [Text (newline ++ newline)])
           (ticks world0 + reasoning_reads [ReasoningDelta "a"]
            + List.length
                (filter (decodes_to wider_loads silent_reasoning)
                   [data_line (both_keys_payload "x"); ""]))
           (sent world0 ++ [deepseek_request "q" (@None (ConversationHistory nat))])).
Proof.
  apply reasoning_key_blocks_early_close
    with (r := both_keys_stream)
         (pre := [reasoning_line "a"; ""])
         (mid := [data_line (both_keys_payload "x"); ""])
         (line := done_line);
    reflexivity.
Defined.

Lemma stage_none_iff_bad_status_sample :
  (returned (StageEnd None BadStatus (Connection [] true false)) = None
   <-> status_code refused <> 200)
  /\ (returned (StageEnd (Some "x") Done (Connection [""] false false)) = None
      <-> status_code answer_then_finish_then_done <> 200).
Proof.
  split.
  - apply (proj1 (@stage_none_iff_bad_status nat sample_clock sample_loads
                    (replying refused) "q" "r" None world0
                    (snd (get_deepseek_reasoning_stream sample_clock sample_loads
                            (replying refused) "q" None world0))
                    refused (StageEnd None BadStatus (Connection [] true false))));
      reflexivity.
  - apply (proj2 (@stage_none_iff_bad_status nat sample_clock sample_loads
                    (replying answer_then_finish_then_done) "q" "r" None world0
                    (snd (get_openai_answer_stream sample_loads
                            (replying answer_then_finish_then_done) "q" "r"
                            (@None (ConversationHistory nat)) world0))
                    answer_then_finish_then_done
                    (StageEnd (Some "x") Done (Connection [""] false false))));
      reflexivity.
Defined.

Lemma commits_restore_the_bound_sample :
  let self := mkHistory [mkTurn "q1" "r1" "a1" 1%nat; mkTurn "q2" "r2" "a2" 2%nat;
                         mkTurn "q3" "r3" "a3" 3%nat] 2 in
  let rounds := [("q4", "r4", "a4")] in
  add_interactions sample_clock rounds (self, world0)
  = (Ok tt,
     (mkHistory
        (lastn (Z.to_nat (max_history self))
           (history self ++ turns_from sample_clock (ticks world0) rounds))
        (max_history self),
      World (stdout world0) (ticks world0 + List.length rounds) (sent world0)))
  /\ Z.of_nat
       (List.length
          (lastn (Z.to_nat (max_history self))
             (history self ++ turns_from sample_clock (ticks world0) rounds)))
     <= max_history self.
Proof.
  intros self rounds. apply commits_restore_the_bound; [simpl; lia|discriminate].
Defined.

Lemma answer_loop_takes_content_sample :
  answer_loop wider_loads (data_line (both_keys_payload "x") :: [done_line]) "" world0
  = answer_loop wider_loads [done_line] ("" ++ "x")
      (World (stdout world0 ++ printed ["x"]) (ticks world0) (sent world0)).
Proof.
  apply answer_loop_takes_content with (chunk := both_keys_chunk "x"); reflexivity.
Defined.

Lemma negative_capacity_keeps_nothing_sample :
  add_interactions sample_clock [("q1", "r1", "a1"); ("q2", "r2", "a2")]
    (new_history nat (-1), world0)
  = (Ok tt,
     (new_history nat (-1),
      World (stdout world0)
        (ticks world0 + List.length [("q1", "r1", "a1"); ("q2", "r2", "a2")])
        (sent world0))).
Proof. apply negative_capacity_keeps_nothing. lia. Defined.

Lemma commit_extends_context_sample :
  let t := mkTurn "q2" "r2" "a2" 2%nat in
  let self := mkHistory [mkTurn "q1" "r1" "a1" 1%nat] 100 in
  (exists front,
      get_conversation_for_deepseek (append_turn t self)
      = (front ++ [Message "user" (user_query t);
                   Message "assistant" (ai_response t)])%list)
  /\ Z.of_nat (List.length (get_conversation_for_deepseek (append_turn t self)))
     <= 2 * max_history self
  /\ (Z.of_nat (List.length (history self)) < max_history self ->
      get_conversation_for_deepseek (append_turn t self)
      = (get_conversation_for_deepseek self
           ++ [Message "user" (user_query t);
               Message "assistant" (ai_response t)])%list).
Proof.
  intros t self. apply commit_extends_context. simpl. lia.
Defined.

Lemma summary_shows_every_turn_sample :
  let t := mkTurn "q1" "r1" "a1" 1%nat in
  let self := mkHistory [t; mkTurn "q2" "r2" "a2" 2%nat] 100 in
  str_contains (shown (user_query t)) (get_summary sample_time_text self) = true
  /\ str_contains (shown (ai_response t)) (get_summary sample_time_text self) = true
  /\ str_contains (sample_time_text (turn_timestamp t))
       (get_summary sample_time_text self) = true.
Proof.
  intros t self. apply summary_shows_every_turn. simpl. auto.
Defined.

Lemma local_inputs_post_nothing_sample :
  let s := Session (mkHistory [mkTurn "q1" "r1" "a1" 1%nat] 100) world0 [] in
  let s' := snd (interactive_step sample_clock sample_loads (replying refused)
                   sample_time_text sample_str_of_exn "posix" (Typed "#CLEAR") s) in
  sent (terminal s') = sent (terminal s)
  /\ ticks (terminal s') = ticks (terminal s)
  /\ conversation_history s'
     = if String.eqb (lower "#CLEAR") "#clear"
       then new_history nat 100
       else conversation_history s.
Proof.
  intros s s'. apply local_inputs_post_nothing. reflexivity.
Defined.

Lemma failed_round_is_absorbed_sample :
  let s := Session (mkHistory [mkTurn "q1" "r1" "a1" 1%nat] 100) world0 [] in
  interactive_step sample_clock wider_loads (replying null_stream)
    sample_time_text sample_str_of_exn "posix" (Typed "why?") s
  = (Next,
     Session (conversation_history s)
       (reported (sample_str_of_exn TypeError)
          (snd (snd (process_question sample_clock wider_loads (replying null_stream)
                       "why?" (conversation_history s, prompted (terminal s))))))
       (os_system s)).
Proof.
  intros s. apply failed_round_is_absorbed; reflexivity.
Defined.

Lemma clear_then_history_sample :
  let s := Session (mkHistory [mkTurn "q1" "r1" "a1" 1%nat] 100) world0 [] in
  interactive_loop sample_clock sample_loads (replying refused)
    sample_time_text sample_str_of_exn "posix" [Typed "#Clear"; Typed "#HISTORY"] s
  = (Next,
     Session (new_history nat 100)
       (say no_history_text (prompted (prompted (terminal s))))
       (os_system s ++ [clear_command "posix"])).
Proof.
  intros s. apply clear_then_history; reflexivity.
Defined.

Lemma answered_question_is_in_summary_sample :
  str_contains (shown "q")
    (get_summary sample_time_text
       (fst (snd (process_question sample_clock sample_loads
                    (replying2 reasoning_then_answer answer_around_malformed) "q"
                    (new_history nat 100, world0))))) = true.
Proof.
  apply answered_question_is_in_summary; [simpl; lia|reflexivity].
Defined.
